(** * Smart-city demonstrators: the watering, heat and traffic sketches

    A shallow embedding of the three Arduino sketches
    ([demonstrator_watering.ino] and the heat and traffic sketches of
    [demonstrator_heat.ino]) together with the properties their
    specification states about them.

    The sketches are straight-line device choreography: a sketch is
    embedded as a computation over the state of the board that also
    yields the chronological list of device writes and delays it
    performed.  Sensor inputs are oracles indexed by the number of reads
    performed so far. *)

From Stdlib Require Import ZArith List String Ascii Bool Lia.
From Stdlib Require Import Floats.SpecFloat.
From stdpp Require Import base list strings.

Local Open Scope Z_scope.

(* ===================================================================== *)
(** * Machine numbers *)
(* ===================================================================== *)

(** [int] on the ATmega328 of the Arduino Uno is 16 bits wide, two's
    complement. *)
Definition int16 (z : Z) : Z := (z + 32768) mod 65536 - 32768.

(** Conversion to [uint16_t], as done for the index argument of
    [setPixelColor]. *)
Definition uint16 (z : Z) : Z := z mod 65536.

(** Conversion to [uint8_t], as done for colour components. *)
Definition uint8 (z : Z) : Z := z mod 256.

(** [float] (and [double], which avr-gcc makes the same type) is IEEE-754
    binary32: 24 bits of precision, infinities at exponent 128. *)
Definition float : Type := spec_float.
Definition prec : Z := 24.
Definition emax : Z := 128.

Definition fadd (x y : float) : float := SFadd prec emax x y.
Definition feqb (x y : float) : bool := SFeqb x y.
Definition fltb (x y : float) : bool := SFltb x y.
Definition fleb (x y : float) : bool := SFleb x y.

(** [m * 2^e] rounded to binary32; used to write float literals. *)
Definition f32 (m e : Z) : float := binary_normalize prec emax m e false.

(** The literal [0]. *)
Definition f_zero : float := S754_zero false.

(** The literal [0.2]: the binary32 number nearest to one fifth,
    13421773 * 2^-26. *)
Definition f_0_2 : float := S754_finite false 13421773 (-26).

(** The cast [(int)x] of a float: truncation toward zero, then the low 16
    bits.  (The C standard leaves the cast undefined outside the range of
    [int] and for NaN and the infinities; those are sent to 0 here.) *)
Definition float_to_int (x : float) : Z :=
  match x with
  | S754_finite s m e =>
      let mag := match e with
                 | Zneg p => Z.shiftr (Zpos m) (Zpos p)
                 | _ => Z.shiftl (Zpos m) e
                 end in
      int16 (if s then - mag else mag)
  | _ => 0
  end.

(* ===================================================================== *)
(** * Devices *)
(* ===================================================================== *)

Inductive strip_id : Type := A0Strip | A1Strip.
Inductive digit_id : Type := D5Digit | D7Digit.
Inductive pin_mode : Type := INPUT | OUTPUT.
Inductive pin_id : Type := PinA0 | PinA1 | PinA3.

Definition HIGH : bool := true.
Definition LOW : bool := false.

(** One entry per call of a device primitive or of [delay], with the
    arguments of the call. *)
Inductive event : Type :=
| Delay (ms : Z)
| LedSetColorRGB (led r g b : Z)
| LcdBegin (cols rows : Z)
| LcdClear
| LcdSetRGB (r g b : Z)
| LcdSetCursor (col row : Z)
| LcdPrint (s : string)
| LcdBlinkLED
| LcdNoBlinkLED
| DigitSetBrightness (d : digit_id) (b : Z)
| DigitShowNumberDec (d : digit_id) (n : Z) (leading_zero : bool)
| DigitClear (d : digit_id)
| StripBegin (s : strip_id)
| StripSetBrightness (s : strip_id) (b : Z)
| StripSetPixelColor (s : strip_id) (n : Z) (c : Z)
| StripShow (s : strip_id)
| StripClear (s : strip_id)
| PinMode (p : pin_id) (mode : pin_mode)
| DigitalWrite (p : pin_id) (level : bool).

(** An addressable LED strip: the pixel buffer the sketch writes, the
    frame last committed to the LEDs by [show], the strip-wide brightness
    and whether [begin] has run.  The number of pixels is the length of
    the buffer. *)
Record strip : Type := mkStrip {
  pixels : list Z;
  shown : list Z;
  brightness : Z;
  begun : bool
}.

Definition numPixels (s : strip) : Z := Z.of_nat (length (pixels s)).

(** A 4-digit display: brightness level and the number it renders, if
    any. *)
Record digit : Type := mkDigit {
  level : Z;
  content : option (Z * bool)
}.

(** The text panel: 2 rows of 16 cells, a cursor, the backlight colour and
    the blink attribute. *)
Record lcd : Type := mkLcd {
  cells : list ascii;
  col : Z;
  row : Z;
  backlight : Z * Z * Z;
  blink : bool
}.

(** Pin A3: its direction and the level last written to it. *)
Record pin : Type := mkPin {
  mode : pin_mode;
  latch : bool
}.

(** One sensor reading of the temperature and humidity sensor: the status
    returned by [readTempAndHumidity] (0 on success) and the two floats it
    leaves in the array. *)
Record reading : Type := mkReading {
  status : Z;
  humidity : float;
  temperature : float
}.

(** The inputs of a sketch: what each successive read returns, and how
    many reads of each kind have been made. *)
Record inputs : Type := mkInputs {
  touch : nat -> bool;
  light : nat -> Z;
  dht : nat -> reading;
  rnd : nat -> N;
  n_touch : nat;
  n_light : nat;
  n_dht : nat;
  n_rnd : nat
}.

(** The board as wired in the README: status lamp on D2, text panel on
    I2C, digit displays on D5 and D7, strips on A0 and A1, the sensor on
    A3.  (The traffic sketch declares no D5 display and never writes
    it.) *)
Record Board : Type := mkBoard {
  D2led : Z * Z * Z;
  I2CDisplay : lcd;
  D5 : digit;
  D7 : digit;
  A0 : strip;
  A1 : strip;
  A3 : pin;
  sensors : inputs
}.

(** The state of a running sketch: the board and the sketch's global
    variables. *)
Record World (G : Type) : Type := mkWorld {
  hw : Board;
  vars : G
}.
Arguments mkWorld {G} _ _.
Arguments hw {G} _.
Arguments vars {G} _.

(** ** Field updates *)

Definition set_D2led (v : Z * Z * Z) (b : Board) : Board :=
  mkBoard v (I2CDisplay b) (D5 b) (D7 b) (A0 b) (A1 b) (A3 b) (sensors b).
Definition set_I2CDisplay (v : lcd) (b : Board) : Board :=
  mkBoard (D2led b) v (D5 b) (D7 b) (A0 b) (A1 b) (A3 b) (sensors b).
Definition set_D5 (v : digit) (b : Board) : Board :=
  mkBoard (D2led b) (I2CDisplay b) v (D7 b) (A0 b) (A1 b) (A3 b) (sensors b).
Definition set_D7 (v : digit) (b : Board) : Board :=
  mkBoard (D2led b) (I2CDisplay b) (D5 b) v (A0 b) (A1 b) (A3 b) (sensors b).
Definition set_A0 (v : strip) (b : Board) : Board :=
  mkBoard (D2led b) (I2CDisplay b) (D5 b) (D7 b) v (A1 b) (A3 b) (sensors b).
Definition set_A1 (v : strip) (b : Board) : Board :=
  mkBoard (D2led b) (I2CDisplay b) (D5 b) (D7 b) (A0 b) v (A3 b) (sensors b).
Definition set_A3 (v : pin) (b : Board) : Board :=
  mkBoard (D2led b) (I2CDisplay b) (D5 b) (D7 b) (A0 b) (A1 b) v (sensors b).
Definition set_sensors (v : inputs) (b : Board) : Board :=
  mkBoard (D2led b) (I2CDisplay b) (D5 b) (D7 b) (A0 b) (A1 b) (A3 b) v.

Definition get_strip (s : strip_id) (b : Board) : strip :=
  match s with A0Strip => A0 b | A1Strip => A1 b end.
Definition set_strip (s : strip_id) (v : strip) (b : Board) : Board :=
  match s with A0Strip => set_A0 v b | A1Strip => set_A1 v b end.
Definition get_digit (d : digit_id) (b : Board) : digit :=
  match d with D5Digit => D5 b | D7Digit => D7 b end.
Definition set_digit (d : digit_id) (v : digit) (b : Board) : Board :=
  match d with D5Digit => set_D5 v b | D7Digit => set_D7 v b end.

(* ===================================================================== *)
(** * Device drivers

    The driver libraries are not part of the sketches; each primitive is
    modelled by its effect on the device it drives. *)
(* ===================================================================== *)

Module Driver.

(** Modelled from the spec: the packed colour of a pixel,
    [Adafruit_NeoPixel::Color(r, g, b)]; (0,0,0) is the off colour. *)
Definition Color (r g b : Z) : Z :=
  Z.lor (Z.shiftl (uint8 r) 16) (Z.lor (Z.shiftl (uint8 g) 8) (uint8 b)).

(** Modelled from the spec: [setPixelColor(n, c)] of the strip driver, a
    guarded write.  The index is received as a [uint16_t]; a pixel is
    written only when the index is below the number of pixels, anything
    else is ignored. *)
Definition setPixelColor (n c : Z) (s : strip) : strip :=
  if uint16 n <? numPixels s
  then mkStrip (<[Z.to_nat (uint16 n) := c]> (pixels s)) (shown s)
               (brightness s) (begun s)
  else s.

(** Modelled from the spec: [clear()] of the strip driver sets every pixel
    of the buffer to off. *)
Definition clear (s : strip) : strip :=
  mkStrip (replicate (length (pixels s)) 0) (shown s) (brightness s) (begun s).

(** Modelled from the spec: [show()] of the strip driver commits the
    buffer to the LEDs. *)
Definition show (s : strip) : strip :=
  mkStrip (pixels s) (pixels s) (brightness s) (begun s).

(** Modelled from the spec: [begin()] of the strip driver prepares the
    data pin; calling it again changes nothing more. *)
Definition begin (s : strip) : strip :=
  mkStrip (pixels s) (shown s) (brightness s) true.

(** Modelled from the spec: [setBrightness(b)] of the strip driver, a
    strip-wide attribute. *)
Definition setBrightness (b : Z) (s : strip) : strip :=
  mkStrip (pixels s) (shown s) (uint8 b) (begun s).

(** Modelled from the spec: the strip object constructed for [n] LEDs. *)
Definition Adafruit_NeoPixel (n : Z) : strip :=
  mkStrip (replicate (Z.to_nat n) 0) (replicate (Z.to_nat n) 0) 255 false.

(** Modelled from the spec: the digit display primitives set-brightness,
    show-number and clear. *)
Definition digit_setBrightness (b : Z) (d : digit) : digit :=
  mkDigit b (content d).
Definition digit_showNumberDec (n : Z) (leading_zero : bool) (d : digit) : digit :=
  mkDigit (level d) (Some (n, leading_zero)).
Definition digit_clear (d : digit) : digit :=
  mkDigit (level d) None.

(** Modelled from the spec: the text panel, 2 rows by 16 columns with
    cursor-addressed placement.  [clear] blanks every cell and homes the
    cursor; [print] writes the characters from the cursor on, advancing
    it, and cells outside the panel are not visible. *)
Definition blank : list ascii := replicate 32 " "%char.

Definition lcd_begin (l : lcd) : lcd :=
  mkLcd blank 0 0 (backlight l) (blink l).
Definition lcd_clear (l : lcd) : lcd :=
  mkLcd blank 0 0 (backlight l) (blink l).
Definition lcd_setRGB (r g b : Z) (l : lcd) : lcd :=
  mkLcd (cells l) (col l) (row l) (uint8 r, uint8 g, uint8 b) (blink l).
Definition lcd_setCursor (c r : Z) (l : lcd) : lcd :=
  mkLcd (cells l) c r (backlight l) (blink l).
Definition lcd_write (ch : ascii) (l : lcd) : lcd :=
  mkLcd (if (0 <=? col l) && (col l <? 16) && (0 <=? row l) && (row l <? 2)
         then <[Z.to_nat (row l * 16 + col l) := ch]> (cells l)
         else cells l)
        (col l + 1) (row l) (backlight l) (blink l).
Definition lcd_print (s : string) (l : lcd) : lcd :=
  fold_left (fun acc ch => lcd_write ch acc) (list_ascii_of_string s) l.
Definition lcd_setBlink (b : bool) (l : lcd) : lcd :=
  mkLcd (cells l) (col l) (row l) (backlight l) b.

(** Modelled from the spec: the Arduino core's [random(lo, hi)], a value
    in [lo, hi) derived from the next raw pseudo-random number. *)
Definition random_range (lo hi : Z) (raw : N) : Z :=
  if lo >=? hi then lo else Z.of_N raw mod (hi - lo) + lo.

End Driver.

(* ===================================================================== *)
(** * Sketch computations *)
(* ===================================================================== *)

(** A computation returns a value, the new state and the events it
    emitted, oldest first. *)
Definition M (G A : Type) : Type := World G -> A * World G * list event.

#[export] Instance M_ret {G} : MRet (M G) :=
  fun A (a : A) w => (a, w, []).

#[export] Instance M_bind {G} : MBind (M G) :=
  fun A B (f : A -> M G B) (m : M G A) w =>
    match m w with
    | (a, w1, t1) =>
        match f a w1 with
        | (b, w2, t2) => (b, w2, t1 ++ t2)
        end
    end.

(** Projections of a run. *)
Definition state_of {G A} (r : A * World G * list event) : World G := snd (fst r).
Definition trace_of {G A} (r : A * World G * list event) : list event := snd r.
Definition value_of {G A} (r : A * World G * list event) : A := fst (fst r).

Section Primitives.
Context {G : Type}.

(** A device write: change the board, emit the event. *)
Definition write (f : Board -> Board) (e : event) : M G unit :=
  fun w => (tt, mkWorld (f (hw w)) (vars w), [e]).

Definition get_var {A} (f : G -> A) : M G A :=
  fun w => (f (vars w), w, []).
Definition set_vars (f : G -> G) : M G unit :=
  fun w => (tt, mkWorld (hw w) (f (vars w)), []).

Definition delay (ms : Z) : M G unit :=
  fun w => (tt, w, [Delay ms]).

(** ** Strips *)
Definition on_strip (s : strip_id) (f : strip -> strip) (b : Board) : Board :=
  set_strip s (f (get_strip s b)) b.

Definition Strip_setPixelColor (s : strip_id) (n c : Z) : M G unit :=
  write (on_strip s (Driver.setPixelColor n c)) (StripSetPixelColor s n c).
Definition Strip_show (s : strip_id) : M G unit :=
  write (on_strip s Driver.show) (StripShow s).
Definition Strip_clear (s : strip_id) : M G unit :=
  write (on_strip s Driver.clear) (StripClear s).
Definition Strip_begin (s : strip_id) : M G unit :=
  write (on_strip s Driver.begin) (StripBegin s).
Definition Strip_setBrightness (s : strip_id) (b : Z) : M G unit :=
  write (on_strip s (Driver.setBrightness b)) (StripSetBrightness s b).

(** ** Digit displays *)
Definition on_digit (d : digit_id) (f : digit -> digit) (b : Board) : Board :=
  set_digit d (f (get_digit d b)) b.

Definition Digit_setBrightness (d : digit_id) (b : Z) : M G unit :=
  write (on_digit d (Driver.digit_setBrightness b)) (DigitSetBrightness d b).
Definition Digit_showNumberDec (d : digit_id) (n : Z) (lz : bool) : M G unit :=
  write (on_digit d (Driver.digit_showNumberDec n lz)) (DigitShowNumberDec d n lz).
Definition Digit_clear (d : digit_id) : M G unit :=
  write (on_digit d Driver.digit_clear) (DigitClear d).

(** ** Text panel *)
Definition on_lcd (f : lcd -> lcd) (b : Board) : Board :=
  set_I2CDisplay (f (I2CDisplay b)) b.

Definition Lcd_begin (c r : Z) : M G unit :=
  write (on_lcd Driver.lcd_begin) (LcdBegin c r).
Definition Lcd_clear : M G unit :=
  write (on_lcd Driver.lcd_clear) LcdClear.
Definition Lcd_setRGB (r g b : Z) : M G unit :=
  write (on_lcd (Driver.lcd_setRGB r g b)) (LcdSetRGB r g b).
Definition Lcd_setCursor (c r : Z) : M G unit :=
  write (on_lcd (Driver.lcd_setCursor c r)) (LcdSetCursor c r).
Definition Lcd_print (s : string) : M G unit :=
  write (on_lcd (Driver.lcd_print s)) (LcdPrint s).
Definition Lcd_blinkLED : M G unit :=
  write (on_lcd (Driver.lcd_setBlink true)) LcdBlinkLED.
Definition Lcd_noBlinkLED : M G unit :=
  write (on_lcd (Driver.lcd_setBlink false)) LcdNoBlinkLED.

(** ** Status lamp: [setColorRGB(led, r, g, b)] on a chain of one LED. *)
Definition Led_setColorRGB (led r g b : Z) : M G unit :=
  write (fun bd => if led =? 0 then set_D2led (uint8 r, uint8 g, uint8 b) bd else bd)
        (LedSetColorRGB led r g b).

(** ** Pins.  The board state records pin A3, the trigger line; the data
    pins A0 and A1 belong to the strips. *)
Definition pinMode (p : pin_id) (m : pin_mode) : M G unit :=
  write (fun bd => match p with
                   | PinA3 => set_A3 (mkPin m (latch (A3 bd))) bd
                   | _ => bd
                   end) (PinMode p m).
Definition digitalWrite (p : pin_id) (v : bool) : M G unit :=
  write (fun bd => match p with
                   | PinA3 => set_A3 (mkPin (mode (A3 bd)) v) bd
                   | _ => bd
                   end) (DigitalWrite p v).

(** ** Inputs: each read consumes the next value of its oracle. *)
Definition read {A} (get : inputs -> A) (next : inputs -> inputs) : M G A :=
  fun w => (get (sensors (hw w)),
            mkWorld (set_sensors (next (sensors (hw w))) (hw w)) (vars w), []).

Definition digitalRead_A3 : M G bool :=
  read (fun i => touch i (n_touch i))
       (fun i => mkInputs (touch i) (light i) (dht i) (rnd i)
                          (S (n_touch i)) (n_light i) (n_dht i) (n_rnd i)).
Definition analogRead_A3 : M G Z :=
  read (fun i => light i (n_light i))
       (fun i => mkInputs (touch i) (light i) (dht i) (rnd i)
                          (n_touch i) (S (n_light i)) (n_dht i) (n_rnd i)).
Definition readTempAndHumidity : M G reading :=
  read (fun i => dht i (n_dht i))
       (fun i => mkInputs (touch i) (light i) (dht i) (rnd i)
                          (n_touch i) (n_light i) (S (n_dht i)) (n_rnd i)).
Definition random (lo hi : Z) : M G Z :=
  read (fun i => Driver.random_range lo hi (rnd i (n_rnd i)))
       (fun i => mkInputs (touch i) (light i) (dht i) (rnd i)
                          (n_touch i) (n_light i) (n_dht i) (S (n_rnd i))).

(** ** Loops *)

(** The values taken by [i] in [for (int i = lo; i <= hi; i += step)].
    The index is a 16-bit [int]: the list is that of the loop as long as
    hi + step <= 32767, where the increment cannot overflow.  At
    hi = 32767 the condition of the C loop cannot become false, and the
    list given here is not what the loop does. *)
Definition range_up (lo hi step : Z) : list Z :=
  if (lo <=? hi) && (0 <? step)
  then map (fun k => lo + step * Z.of_nat k) (seq 0 (Z.to_nat ((hi - lo) / step + 1)))
  else [].

(** The values taken by [i] in [for (int i = hi; i >= lo; i -= 1)]. *)
Definition range_down (hi lo : Z) : list Z :=
  map (fun k => hi - Z.of_nat k) (seq 0 (Z.to_nat (hi - lo + 1))).

(** A [for] loop whose body keeps no local state between iterations. *)
Fixpoint for_each (l : list Z) (body : Z -> M G unit) : M G unit :=
  match l with
  | [] => mret tt
  | i :: rest => body i ;; for_each rest body
  end.

(** A [for] loop threading the locals [a] declared before it. *)
Fixpoint for_fold {A} (l : list Z) (a : A) (body : Z -> A -> M G A) : M G A :=
  match l with
  | [] => mret a
  | i :: rest => a' ← body i a; for_fold rest a' body
  end.

(** ** [animateStrip], identical in the three sketches

<<
void animateStrip(Adafruit_NeoPixel* Strip, int intLEDStripNumber) {
  for (int i = 0; i <= intLEDStripNumber; i += 1) {
    Strip->setPixelColor(i, Strip->Color(200, 0, 0));
    Strip->setPixelColor((i - 1), Strip->Color(0, 0, 0));
    Strip->show();
    delay(400);
  }
  Strip->clear();
  Strip->show();
}
>> *)
Definition animateStrip_step (Strip : strip_id) (i : Z) : M G unit :=
  Strip_setPixelColor Strip i (Driver.Color 200 0 0) ;;
  Strip_setPixelColor Strip (i - 1) (Driver.Color 0 0 0) ;;
  Strip_show Strip ;;
  delay 400.

Definition animateStrip (Strip : strip_id) (intLEDStripNumber : Z) : M G unit :=
  for_each (range_up 0 intLEDStripNumber 1) (animateStrip_step Strip) ;;
  Strip_clear Strip ;;
  Strip_show Strip.

End Primitives.

(* ===================================================================== *)
(** * The watering sketch ([demonstrator_watering.ino]) *)
(* ===================================================================== *)

Module Watering.

Local Open Scope string_scope.
Local Open Scope Z_scope.

(** The sketch has no global variable that is ever assigned; the four
    configuration integers are constants. *)
Definition Globals : Type := unit.

Definition intA0LEDStripNumber : Z := 8.
Definition intA1LEDStripNumber : Z := 10.
Definition intDigitBaseNumberMin : Z := 20.
Definition intDigitBaseNumberMax : Z := 40.

(** [resetAll], lines 63-91. *)
Definition resetAll : M Globals unit :=
  Led_setColorRGB 0 100 20 0 ;;
  Lcd_clear ;;
  Lcd_setRGB 150 100 0 ;;
  Lcd_setCursor 0 0 ;;
  Lcd_print "Keine neuen" ;;
  Lcd_setCursor 0 1 ;;
  Lcd_print "Daten." ;;
  Strip_begin A0Strip ;;
  Strip_clear A0Strip ;;
  Strip_show A0Strip ;;
  Strip_begin A1Strip ;;
  Strip_clear A1Strip ;;
  Strip_show A1Strip ;;
  digitalWrite PinA3 LOW ;;
  Digit_clear D5Digit ;;
  Digit_clear D7Digit.

(** [random(intDigitBaseNumberMin, intDigitBaseNumberMax+1)] received by
    an [int]. *)
Definition random_level : M Globals Z :=
  r ← random intDigitBaseNumberMin (intDigitBaseNumberMax + 1);
  mret (int16 r).

(** Body of the slot-machine loop, lines 158-161. *)
Definition slot_step (_ : Z) : M Globals unit :=
  r ← random_level;
  Digit_showNumberDec D5Digit r false ;;
  delay 100.

(** Body of the fade-in loop, lines 179-183. *)
Definition fade_step (intRandomLEDValue : Z) (i : Z) : M Globals unit :=
  Digit_setBrightness D7Digit i ;;
  Digit_showNumberDec D7Digit intRandomLEDValue false ;;
  delay 500.

(** Body of the watering loop, lines 219-249; the pair holds the locals
    [intA0LEDStripCounter] and [intA1LEDStripCounter]. *)
Definition ramp_step (intRandomLEDValue : Z) (i : Z) (c : Z * Z) : M Globals (Z * Z) :=
  Lcd_setRGB 0 i (59 - i) ;;
  delay 150 ;;
  Digit_showNumberDec D5Digit (int16 (intRandomLEDValue + i)) false ;;
  Digit_showNumberDec D7Digit (int16 (intRandomLEDValue + i)) false ;;
  c0 ← (if fst c =? intA0LEDStripNumber
        then Strip_clear A0Strip ;; mret 0
        else mret (fst c));
  c1 ← (if snd c =? intA1LEDStripNumber
        then Strip_clear A1Strip ;; mret 0
        else mret (snd c));
  Strip_setPixelColor A0Strip (c0 - 1) (Driver.Color 0 0 0) ;;
  Strip_setPixelColor A1Strip (c1 - 1) (Driver.Color 0 0 0) ;;
  Strip_setPixelColor A0Strip c0 (Driver.Color 200 0 0) ;;
  Strip_setPixelColor A1Strip c1 (Driver.Color 200 0 0) ;;
  Strip_show A0Strip ;;
  Strip_show A1Strip ;;
  mret (c0 + 1, c1 + 1).

(** The body of the [if] of [loop], lines 152-277. *)
Definition sequence : M Globals unit :=
  (* phase 1 *)
  Digit_setBrightness D5Digit 4 ;;
  for_each (range_up 1 10 1) slot_step ;;
  intRandomLEDValue ← random_level;
  Digit_showNumberDec D5Digit intRandomLEDValue false ;;
  delay 500 ;;
  animateStrip A0Strip intA0LEDStripNumber ;;
  (* phase 2 *)
  Digit_setBrightness D7Digit 0 ;;
  Digit_showNumberDec D7Digit intRandomLEDValue false ;;
  for_each (range_up 1 4 1) (fade_step intRandomLEDValue) ;;
  animateStrip A1Strip intA1LEDStripNumber ;;
  (* phase 3 *)
  Lcd_clear ;;
  Lcd_setRGB 200 0 0 ;;
  Lcd_setCursor 0 0 ;;
  Lcd_print "Baum hat wenig" ;;
  Lcd_setCursor 0 1 ;;
  Lcd_print "Wasser." ;;
  Lcd_blinkLED ;;
  delay 5000 ;;
  Lcd_noBlinkLED ;;
  (* phase 4 *)
  Lcd_clear ;;
  Lcd_setRGB 0 0 200 ;;
  Lcd_setCursor 0 0 ;;
  Lcd_print "Bitte giessen." ;;
  (* phase 5 *)
  for_fold (range_up 0 59 2) (0, 0) (ramp_step intRandomLEDValue) ;;
  Strip_clear A0Strip ;;
  Strip_show A0Strip ;;
  Strip_clear A1Strip ;;
  Strip_show A1Strip ;;
  (* phase 6 *)
  Lcd_clear ;;
  Lcd_setRGB 0 200 0 ;;
  Lcd_setCursor 0 0 ;;
  Lcd_print "Baum hat genug" ;;
  Lcd_setCursor 0 1 ;;
  Lcd_print "Wasser." ;;
  delay 2000 ;;
  Led_setColorRGB 0 0 150 0 ;;
  delay 5000 ;;
  (* phase 7 *)
  resetAll.

(** [loop], lines 148-279. *)
Definition loop : M Globals unit :=
  t ← digitalRead_A3;
  if Bool.eqb t HIGH then sequence else mret tt.

(** [n] successive calls of [loop]. *)
Fixpoint polls (n : nat) : M Globals unit :=
  match n with
  | O => mret tt
  | S k => loop ;; polls k
  end.

End Watering.

(* ===================================================================== *)
(** * The heat sketch ([demonstrator_heat.ino], first sketch) *)
(* ===================================================================== *)

Module Heat.

Local Open Scope string_scope.
Local Open Scope Z_scope.

Record Globals : Type := mkGlobals {
  TemperatureCurrent : float;
  TemperaturePrevious : float;
  TemperatureTarget : Z
}.

Definition intA0LEDStripNumber : Z := 8.
Definition intA1LEDStripNumber : Z := 10.
Definition MaxCelsiusIncrease : Z := 1.

(** The globals as the C runtime zero-initialises them. *)
Definition globals0 : Globals := mkGlobals f_zero f_zero 0.

Definition set_TemperatureCurrent (v : float) : M Globals unit :=
  set_vars (fun g => mkGlobals v (TemperaturePrevious g) (TemperatureTarget g)).
Definition set_TemperaturePrevious (v : float) : M Globals unit :=
  set_vars (fun g => mkGlobals (TemperatureCurrent g) v (TemperatureTarget g)).
Definition set_TemperatureTarget (v : Z) : M Globals unit :=
  set_vars (fun g => mkGlobals (TemperatureCurrent g) (TemperaturePrevious g) v).

(** [resetAll], lines 60-87. *)
Definition resetAll : M Globals unit :=
  Lcd_clear ;;
  Lcd_setRGB 0 150 0 ;;
  Lcd_setCursor 0 0 ;;
  Lcd_print "Temperatur" ;;
  Lcd_setCursor 0 1 ;;
  Lcd_print "normal." ;;
  Strip_begin A0Strip ;;
  Strip_clear A0Strip ;;
  Strip_show A0Strip ;;
  Strip_begin A1Strip ;;
  Strip_clear A1Strip ;;
  Strip_show A1Strip ;;
  Digit_clear D7Digit ;;
  Led_setColorRGB 0 0 150 0 ;;
  set_TemperatureTarget 0.

(** Body of the blink loop, lines 160-165. *)
Definition blink_step (_ : Z) : M Globals unit :=
  Led_setColorRGB 0 10 0 0 ;;
  delay 200 ;;
  Led_setColorRGB 0 200 0 0 ;;
  delay 200.

(** Body of the fade-in loop, lines 173-177. *)
Definition fade_step (i : Z) : M Globals unit :=
  Digit_setBrightness D7Digit i ;;
  cur ← get_var TemperatureCurrent;
  Digit_showNumberDec D7Digit (float_to_int cur) false ;;
  delay 500.

(** The alert sequence: the body of the innermost [if] of [loop], lines
    159-213.  It ends by reading the sensor again, whatever the status of
    that read, and calling [resetAll]. *)
Definition alert : M Globals unit :=
  for_each (range_up 0 2 1) blink_step ;;
  animateStrip A0Strip intA0LEDStripNumber ;;
  Digit_setBrightness D7Digit 0 ;;
  cur ← get_var TemperatureCurrent;
  Digit_showNumberDec D7Digit (float_to_int cur) false ;;
  for_each (range_up 1 4 1) fade_step ;;
  delay 500 ;;
  animateStrip A1Strip intA1LEDStripNumber ;;
  Lcd_clear ;;
  Lcd_setRGB 200 0 0 ;;
  Lcd_setCursor 0 0 ;;
  Lcd_print "Starker Tempe-" ;;
  Lcd_setCursor 0 1 ;;
  Lcd_print "raturanstieg!" ;;
  Lcd_blinkLED ;;
  delay 5000 ;;
  Lcd_noBlinkLED ;;
  Lcd_clear ;;
  Lcd_setRGB 0 0 50 ;;
  Lcd_setCursor 0 0 ;;
  Lcd_print "Bitte genug" ;;
  Lcd_setCursor 0 1 ;;
  Lcd_print "trinken." ;;
  delay 7000 ;;
  TempAndHum ← readTempAndHumidity;
  set_TemperatureCurrent (temperature TempAndHum) ;;
  set_TemperaturePrevious (temperature TempAndHum) ;;
  resetAll.

(** Lines 147-219: the comparison of the sample with the previous one. *)
Definition evaluate : M Globals unit :=
  cur ← get_var TemperatureCurrent;
  prev ← get_var TemperaturePrevious;
  if fleb (fadd prev f_0_2) cur then
    tgt ← get_var TemperatureTarget;
    (if tgt =? 0
     then set_TemperatureTarget (int16 (float_to_int cur + MaxCelsiusIncrease))
     else mret tt) ;;
    tgt ← get_var TemperatureTarget;
    if float_to_int cur >=? tgt then alert else mret tt
  else if fltb cur (fadd prev f_0_2) then resetAll
  else mret tt.

(** [loop], lines 129-224. *)
Definition loop : M Globals unit :=
  delay 1500 ;;
  TempAndHum ← readTempAndHumidity;
  if status TempAndHum =? 0 then
    set_TemperatureCurrent (temperature TempAndHum) ;;
    cur ← get_var TemperatureCurrent;
    Digit_showNumberDec D5Digit (float_to_int cur) false ;;
    prev ← get_var TemperaturePrevious;
    (if feqb prev f_zero then set_TemperaturePrevious cur else mret tt) ;;
    evaluate ;;
    cur ← get_var TemperatureCurrent;
    set_TemperaturePrevious cur
  else mret tt.

(** [n] successive calls of [loop]. *)
Fixpoint polls (n : nat) : M Globals unit :=
  match n with
  | O => mret tt
  | S k => loop ;; polls k
  end.

(** Modelled from the spec: [begin()] of the temperature sensor driver
    prepares the sensor; it writes no output device. *)
Definition Dht_begin : M Globals unit := mret tt.

(** [setup], lines 94-121. *)
Definition setup : M Globals unit :=
  pinMode PinA0 OUTPUT ;;
  pinMode PinA1 OUTPUT ;;
  pinMode PinA3 INPUT ;;
  Lcd_begin 16 2 ;;
  Strip_begin A0Strip ;;
  Strip_setBrightness A0Strip 150 ;;
  Strip_show A0Strip ;;
  Strip_begin A1Strip ;;
  Strip_setBrightness A1Strip 150 ;;
  Strip_show A1Strip ;;
  Dht_begin ;;
  Digit_setBrightness D5Digit 4 ;;
  resetAll.

End Heat.

(* ===================================================================== *)
(** * The traffic sketch ([demonstrator_heat.ino], second sketch) *)
(* ===================================================================== *)

Module Traffic.

Local Open Scope string_scope.
Local Open Scope Z_scope.

Record Globals : Type := mkGlobals {
  LightCurrent : Z;
  LightPrevious : Z
}.

Definition intA0LEDStripNumber : Z := 11.
Definition intA1LEDStripNumber : Z := 11.
Definition LightDifference : Z := 50.

(** The initialisers of lines 245-246. *)
Definition globals0 : Globals := mkGlobals 0 0.

Definition set_LightCurrent (v : Z) : M Globals unit :=
  set_vars (fun g => mkGlobals v (LightPrevious g)).
Definition set_LightPrevious (v : Z) : M Globals unit :=
  set_vars (fun g => mkGlobals (LightCurrent g) v).

(** [resetAll], lines 277-301. *)
Definition resetAll : M Globals unit :=
  Lcd_clear ;;
  Lcd_setRGB 0 150 0 ;;
  Lcd_setCursor 0 0 ;;
  Lcd_print "50 Parkplaetze" ;;
  Lcd_setCursor 0 1 ;;
  Lcd_print "frei." ;;
  Strip_begin A0Strip ;;
  Strip_clear A0Strip ;;
  Strip_show A0Strip ;;
  Strip_begin A1Strip ;;
  Strip_clear A1Strip ;;
  Strip_show A1Strip ;;
  Digit_clear D7Digit ;;
  Led_setColorRGB 0 0 150 0.

(** [setup], lines 307-329. *)
Definition setup : M Globals unit :=
  pinMode PinA0 OUTPUT ;;
  pinMode PinA1 OUTPUT ;;
  pinMode PinA3 INPUT ;;
  Lcd_begin 16 2 ;;
  Strip_begin A0Strip ;;
  Strip_setBrightness A0Strip 150 ;;
  Strip_show A0Strip ;;
  Strip_begin A1Strip ;;
  Strip_setBrightness A1Strip 150 ;;
  Strip_show A1Strip ;;
  resetAll.

(** Body of the fade-in loop, lines 357-361. *)
Definition fade_step (i : Z) : M Globals unit :=
  Digit_setBrightness D7Digit i ;;
  Digit_showNumberDec D7Digit 50 false ;;
  delay 500.

(** Body of the countdown loop, lines 364-367. *)
Definition countdown_step (i : Z) : M Globals unit :=
  Digit_showNumberDec D7Digit i false ;;
  delay 10.

(** The parking-lot-full sequence: the body of the [if] of [loop], lines
    346-399. *)
Definition sequence : M Globals unit :=
  Led_setColorRGB 0 200 0 0 ;;
  animateStrip A0Strip intA0LEDStripNumber ;;
  Digit_setBrightness D7Digit 0 ;;
  Digit_showNumberDec D7Digit 50 false ;;
  for_each (range_up 1 4 1) fade_step ;;
  for_each (range_down 50 0) countdown_step ;;
  delay 500 ;;
  animateStrip A1Strip intA1LEDStripNumber ;;
  Lcd_clear ;;
  Lcd_setRGB 200 0 0 ;;
  Lcd_setCursor 0 0 ;;
  Lcd_print "Alle Park-" ;;
  Lcd_setCursor 0 1 ;;
  Lcd_print "plaetze belegt." ;;
  Lcd_blinkLED ;;
  delay 5000 ;;
  Lcd_noBlinkLED ;;
  Lcd_clear ;;
  Lcd_setRGB 0 0 50 ;;
  Lcd_setCursor 0 0 ;;
  Lcd_print "Bitte Nahverkehr" ;;
  Lcd_setCursor 0 1 ;;
  Lcd_print "nutzen. Danke!" ;;
  delay 7000 ;;
  resetAll.

(** [loop], lines 336-404. *)
Definition loop : M Globals unit :=
  delay 1000 ;;
  a ← analogRead_A3;
  set_LightCurrent a ;;
  cur ← get_var LightCurrent;
  prev ← get_var LightPrevious;
  (if cur <=? int16 (prev - LightDifference) then sequence else mret tt) ;;
  cur ← get_var LightCurrent;
  set_LightPrevious cur.

(** [n] successive calls of [loop]. *)
Fixpoint polls (n : nat) : M Globals unit :=
  match n with
  | O => mret tt
  | S k => loop ;; polls k
  end.

End Traffic.

(* ===================================================================== *)
(** * Vocabulary of the properties

    The lists of events and the idle states the properties below are
    stated with, and the conditions the sketches test. *)
(* ===================================================================== *)

(** ** Strips *)

(** The number of pixels of a strip of the board. *)
Definition strip_length {G} (Strip : strip_id) (w : World G) : nat :=
  length (pixels (get_strip Strip (hw w))).

(** The events of one iteration and of the whole animation. *)
Definition chaser_frame (Strip : strip_id) (i : Z) : list event :=
  [StripSetPixelColor Strip i (Driver.Color 200 0 0);
   StripSetPixelColor Strip (i - 1) (Driver.Color 0 0 0);
   StripShow Strip;
   Delay 400].

Definition chaser (Strip : strip_id) (L : Z) : list event :=
  flat_map (chaser_frame Strip) (range_up 0 L 1)
  ++ [StripClear Strip; StripShow Strip].

(** ** Baseline/Reset *)

(** What [begin; clear; show] leaves of a strip: a begun strip with every
    pixel off and committed. *)
Definition strip_reset (s : strip) : strip :=
  mkStrip (replicate (length (pixels s)) 0) (replicate (length (pixels s)) 0)
          (brightness s) true.

(** The text panel showing the two idle lines with the idle backlight;
    the cursor rests after the second line, the blink attribute is
    whatever it was. *)
Definition idle_panel (line0 line1 : string) (rgb : Z * Z * Z) (l : lcd) : lcd :=
  mkLcd (cells (Driver.lcd_print line1
                  (Driver.lcd_setCursor 0 1
                     (Driver.lcd_print line0 (mkLcd Driver.blank 0 0 rgb false)))))
        (Z.of_nat (String.length line1)) 1 rgb (blink l).

(** The idle state left by the watering [resetAll]. *)
Definition watering_idle (b : Board) : Board :=
  mkBoard (100, 20, 0)
          (idle_panel "Keine neuen" "Daten." (150, 100, 0) (I2CDisplay b))
          (Driver.digit_clear (D5 b)) (Driver.digit_clear (D7 b))
          (strip_reset (A0 b)) (strip_reset (A1 b))
          (mkPin (mode (A3 b)) LOW) (sensors b).

(** The idle state left by the heat [resetAll]. *)
Definition heat_idle (b : Board) : Board :=
  mkBoard (0, 150, 0)
          (idle_panel "Temperatur" "normal." (0, 150, 0) (I2CDisplay b))
          (D5 b) (Driver.digit_clear (D7 b))
          (strip_reset (A0 b)) (strip_reset (A1 b))
          (A3 b) (sensors b).

(** The idle state left by the traffic [resetAll]. *)
Definition traffic_idle (b : Board) : Board :=
  mkBoard (0, 150, 0)
          (idle_panel "50 Parkplaetze" "frei." (0, 150, 0) (I2CDisplay b))
          (D5 b) (Driver.digit_clear (D7 b))
          (strip_reset (A0 b)) (strip_reset (A1 b))
          (A3 b) (sensors b).

(** The calls made by each [resetAll], in order. *)
Definition strip_reset_events (s : strip_id) : list event :=
  [StripBegin s; StripClear s; StripShow s].

Definition idle_text_events (rgb : Z * Z * Z) (line0 line1 : string) : list event :=
  [LcdClear; LcdSetRGB rgb.1.1 rgb.1.2 rgb.2;
   LcdSetCursor 0 0; LcdPrint line0; LcdSetCursor 0 1; LcdPrint line1].

Definition watering_reset_events : list event :=
  [LedSetColorRGB 0 100 20 0]
  ++ idle_text_events (150, 100, 0) "Keine neuen" "Daten."
  ++ strip_reset_events A0Strip ++ strip_reset_events A1Strip
  ++ [DigitalWrite PinA3 LOW; DigitClear D5Digit; DigitClear D7Digit].

Definition heat_reset_events : list event :=
  idle_text_events (0, 150, 0) "Temperatur" "normal."
  ++ strip_reset_events A0Strip ++ strip_reset_events A1Strip
  ++ [DigitClear D7Digit; LedSetColorRGB 0 0 150 0].

Definition traffic_reset_events : list event :=
  idle_text_events (0, 150, 0) "50 Parkplaetze" "frei."
  ++ strip_reset_events A0Strip ++ strip_reset_events A1Strip
  ++ [DigitClear D7Digit; LedSetColorRGB 0 0 150 0].

(** An event that drives a pin. *)
Definition is_pin_event (e : event) : bool :=
  match e with
  | PinMode _ _ | DigitalWrite _ _ => true
  | _ => false
  end.

(** ** The watering sequence *)

Section WateringEvents.

(** How the value shown during the watering ramp is formed from the
    settled value and the loop index, and the values drawn from the
    pseudo-random generator, the k-th draw of the run being [draw k]. *)
Variable plus : Z -> Z -> Z.
Variable draw : nat -> Z.

Definition red : Z := Driver.Color 200 0 0.
Definition off : Z := Driver.Color 0 0 0.

(** Ten renders of a fresh pseudo-random value, 100 ms apart. *)
Definition slot_events : list event :=
  flat_map (fun k => [DigitShowNumberDec D5Digit (draw k) false; Delay 100])
           (seq 0 10).

(** The second display renders V at brightness 1 to 4, 500 ms apart. *)
Definition fade_events (V : Z) : list event :=
  flat_map (fun i => [DigitSetBrightness D7Digit i;
                      DigitShowNumberDec D7Digit V false; Delay 500])
           [1; 2; 3; 4].

(** Step k of the ramp, where i = 2k: backlight, 150 ms, both displays
    render V+i, and the chaser pixel of each strip advances, wrapping
    (with a clear) at the end of the strip. *)
Definition ramp_frame (V : Z) (k : nat) : list event :=
  let i := 2 * Z.of_nat k in
  let c0 := Z.of_nat (Nat.modulo k 8) in
  let c1 := Z.of_nat (Nat.modulo k 10) in
  [LcdSetRGB 0 i (59 - i); Delay 150;
   DigitShowNumberDec D5Digit (plus V i) false;
   DigitShowNumberDec D7Digit (plus V i) false]
  ++ (if Nat.ltb 0 k && Nat.eqb (Nat.modulo k 8) 0 then [StripClear A0Strip] else [])
  ++ (if Nat.ltb 0 k && Nat.eqb (Nat.modulo k 10) 0 then [StripClear A1Strip] else [])
  ++ [StripSetPixelColor A0Strip (c0 - 1) off;
      StripSetPixelColor A1Strip (c1 - 1) off;
      StripSetPixelColor A0Strip c0 red;
      StripSetPixelColor A1Strip c1 red;
      StripShow A0Strip; StripShow A1Strip].

Definition ramp_events (V : Z) : list event :=
  flat_map (ramp_frame V) (seq 0 30).

(** The whole sequence, V being the eleventh draw. *)
Definition watering_events : list event :=
  let V := draw 10%nat in
  [DigitSetBrightness D5Digit 4]
  ++ slot_events
  ++ [DigitShowNumberDec D5Digit V false; Delay 500]
  ++ chaser A0Strip 8
  ++ [DigitSetBrightness D7Digit 0; DigitShowNumberDec D7Digit V false]
  ++ fade_events V
  ++ chaser A1Strip 10
  ++ [LcdClear; LcdSetRGB 200 0 0; LcdSetCursor 0 0; LcdPrint "Baum hat wenig";
      LcdSetCursor 0 1; LcdPrint "Wasser."; LcdBlinkLED; Delay 5000;
      LcdNoBlinkLED]
  ++ [LcdClear; LcdSetRGB 0 0 200; LcdSetCursor 0 0; LcdPrint "Bitte giessen."]
  ++ ramp_events V
  ++ [StripClear A0Strip; StripShow A0Strip; StripClear A1Strip; StripShow A1Strip]
  ++ [LcdClear; LcdSetRGB 0 200 0; LcdSetCursor 0 0; LcdPrint "Baum hat genug";
      LcdSetCursor 0 1; LcdPrint "Wasser."; Delay 2000]
  ++ [LedSetColorRGB 0 0 150 0; Delay 5000]
  ++ watering_reset_events.

End WateringEvents.

(** The raw draws of a run started in [w], as the sketch receives them. *)
Definition raw_draw (w : World Watering.Globals) (k : nat) : N :=
  rnd (sensors (hw w)) (k + n_rnd (sensors (hw w)))%nat.

(** ** Triggered sequences *)

(** The number of alert sequences in a list of events.  In each sketch
    the triggered sequence, and nothing else, switches the blinking of the
    text panel on, once. *)
Definition starts_alert (e : event) : bool :=
  match e with LcdBlinkLED => true | _ => false end.

Definition fires (t : list event) : nat := length (List.filter starts_alert t).

(** The calls of the parking-lot-full sequence. *)
Definition traffic_sequence_events : list event :=
  [LedSetColorRGB 0 200 0 0]
  ++ chaser A0Strip 11
  ++ [DigitSetBrightness D7Digit 0; DigitShowNumberDec D7Digit 50 false]
  ++ flat_map (fun i => [DigitSetBrightness D7Digit i;
                         DigitShowNumberDec D7Digit 50 false; Delay 500])
              [1; 2; 3; 4]
  ++ flat_map (fun k => [DigitShowNumberDec D7Digit (50 - Z.of_nat k) false; Delay 10])
              (seq 0 51)
  ++ [Delay 500]
  ++ chaser A1Strip 11
  ++ [LcdClear; LcdSetRGB 200 0 0; LcdSetCursor 0 0; LcdPrint "Alle Park-";
      LcdSetCursor 0 1; LcdPrint "plaetze belegt."; LcdBlinkLED; Delay 5000;
      LcdNoBlinkLED]
  ++ [LcdClear; LcdSetRGB 0 0 50; LcdSetCursor 0 0; LcdPrint "Bitte Nahverkehr";
      LcdSetCursor 0 1; LcdPrint "nutzen. Danke!"; Delay 7000]
  ++ traffic_reset_events.

(** The sample the next [analogRead(A3)] returns. *)
Definition next_light {G} (w : World G) : Z :=
  light (sensors (hw w)) (n_light (sensors (hw w))).

(** The state in which the comparison of [loop] is made: the sample has
    been read into [LightCurrent]. *)
Definition seen (w : World Traffic.Globals) : World Traffic.Globals :=
  mkWorld (hw (state_of (analogRead_A3 w)))
          (Traffic.mkGlobals (next_light w) (Traffic.LightPrevious (vars w))).

(** The condition of the [if] of [loop]. *)
Definition drop_detected (w : World Traffic.Globals) : bool :=
  next_light w <=? int16 (Traffic.LightPrevious (vars w) - Traffic.LightDifference).

(** ** The heat trigger *)

(** The calls of the alert sequence, [n] being [(int)TemperatureCurrent]. *)
Definition heat_alert_events (n : Z) : list event :=
  flat_map (fun _ => [LedSetColorRGB 0 10 0 0; Delay 200;
                      LedSetColorRGB 0 200 0 0; Delay 200]) [0; 1; 2]
  ++ chaser A0Strip 8
  ++ [DigitSetBrightness D7Digit 0; DigitShowNumberDec D7Digit n false]
  ++ flat_map (fun i => [DigitSetBrightness D7Digit i;
                         DigitShowNumberDec D7Digit n false; Delay 500])
              [1; 2; 3; 4]
  ++ [Delay 500]
  ++ chaser A1Strip 10
  ++ [LcdClear; LcdSetRGB 200 0 0; LcdSetCursor 0 0; LcdPrint "Starker Tempe-";
      LcdSetCursor 0 1; LcdPrint "raturanstieg!"; LcdBlinkLED; Delay 5000;
      LcdNoBlinkLED]
  ++ [LcdClear; LcdSetRGB 0 0 50; LcdSetCursor 0 0; LcdPrint "Bitte genug";
      LcdSetCursor 0 1; LcdPrint "trinken."; Delay 7000]
  ++ heat_reset_events.

(** The reading the next [readTempAndHumidity] returns, and the number of
    readings made so far. *)
Definition next_reading {G} (w : World G) : reading :=
  dht (sensors (hw w)) (n_dht (sensors (hw w))).

Definition dht_reads {G} (w : World G) : nat := n_dht (sensors (hw w)).

(** The previous temperature a poll compares with: the stored one, or the
    sample itself when the stored one is the sentinel 0. *)
Definition seeded (prev cur : float) : float :=
  if feqb prev f_zero then cur else prev.

(** The state in which [evaluate] runs. *)
Definition sampled (w : World Heat.Globals) : World Heat.Globals :=
  let cur := temperature (next_reading w) in
  mkWorld (on_digit D5Digit (Driver.digit_showNumberDec (float_to_int cur) false)
             (hw (state_of (readTempAndHumidity w))))
          (Heat.mkGlobals cur (seeded (Heat.TemperaturePrevious (vars w)) cur)
                          (Heat.TemperatureTarget (vars w))).

(** The sample of a poll and the conditions [evaluate] tests on it. *)
Definition sample (w : World Heat.Globals) : float := temperature (next_reading w).

Definition baseline (w : World Heat.Globals) : float :=
  seeded (Heat.TemperaturePrevious (vars w)) (sample w).

Definition read_ok (w : World Heat.Globals) : bool := status (next_reading w) =? 0.

Definition rising (w : World Heat.Globals) : bool :=
  fleb (fadd (baseline w) f_0_2) (sample w).

Definition below_band (w : World Heat.Globals) : bool :=
  fltb (sample w) (fadd (baseline w) f_0_2).

Definition armed_target (w : World Heat.Globals) : Z :=
  if Heat.TemperatureTarget (vars w) =? 0
  then int16 (float_to_int (sample w) + Heat.MaxCelsiusIncrease)
  else Heat.TemperatureTarget (vars w).

Definition target_reached (w : World Heat.Globals) : bool :=
  float_to_int (sample w) >=? armed_target w.

(** What a poll does, by the branch it takes. *)
Inductive outcome : Type := Skipped | Fired | Held | Relaxed | Unordered.

Definition classify (w : World Heat.Globals) : outcome :=
  if read_ok w then
    if rising w then (if target_reached w then Fired else Held)
    else if below_band w then Relaxed else Unordered
  else Skipped.

(** The temperature of the reading after the next one: what the alert
    sequence reads when it samples again. *)
Definition resample (w : World Heat.Globals) : float :=
  temperature (dht (sensors (hw w)) (S (dht_reads w))).

(** The calls, the globals and the number of readings after a poll. *)
Definition poll_events (w : World Heat.Globals) : list event :=
  let shown := DigitShowNumberDec D5Digit (float_to_int (sample w)) false in
  match classify w with
  | Skipped => [Delay 1500]
  | Fired => Delay 1500 :: shown :: heat_alert_events (float_to_int (sample w))
  | Held => [Delay 1500; shown]
  | Relaxed => Delay 1500 :: shown :: heat_reset_events
  | Unordered => [Delay 1500; shown]
  end.

Definition poll_vars (w : World Heat.Globals) : Heat.Globals :=
  match classify w with
  | Skipped => vars w
  | Fired => Heat.mkGlobals (resample w) (resample w) 0
  | Held => Heat.mkGlobals (sample w) (sample w) (armed_target w)
  | Relaxed => Heat.mkGlobals (sample w) (sample w) 0
  | Unordered => Heat.mkGlobals (sample w) (sample w) (Heat.TemperatureTarget (vars w))
  end.

Definition poll_reads (w : World Heat.Globals) : nat :=
  match classify w with
  | Fired => S (S (dht_reads w))
  | _ => S (dht_reads w)
  end.

(** The state after [k] polls. *)
Definition after (k : nat) (w : World Heat.Globals) : World Heat.Globals :=
  state_of (Heat.polls k w).

(** The calls of a poll that goes straight to [resetAll]. *)
Definition relax_events (w : World Heat.Globals) : list event :=
  Delay 1500
  :: DigitShowNumberDec D5Digit (float_to_int (sample w)) false
  :: heat_reset_events.


(** [floor] of a float, as the specification words the cast; it is
    compared with [float_to_int] below. *)
Definition float_floor (x : float) : Z :=
  match x with
  | S754_finite s m e =>
      match e with
      | Zneg p =>
          if s then - ((Zpos m + 2 ^ Zpos p - 1) / 2 ^ Zpos p)
          else Zpos m / 2 ^ Zpos p
      | _ => if s then - (Zpos m * 2 ^ e) else Zpos m * 2 ^ e
      end
  | _ => 0
  end.

(* ===================================================================== *)
(** * Concrete boards *)
(* ===================================================================== *)

Module Demo.

Definition panel : lcd := mkLcd Driver.blank 0 0 (0, 0, 0) false.
Definition display : digit := mkDigit 0 None.

(** A freshly powered board with strips of [a] and [b] pixels. *)
Definition board (a b : Z) (i : inputs) : Board :=
  mkBoard (0, 0, 0) panel display display
          (Driver.Adafruit_NeoPixel a) (Driver.Adafruit_NeoPixel b)
          (mkPin INPUT LOW) i.

Definition celsius (m e : Z) : reading := mkReading 0 f_zero (f32 m e).
Definition failed : reading := mkReading (-1) S754_nan S754_nan.

(** A finger on the touch sensor; the generator yields 3, 10, 17, ... *)
Definition touched : inputs :=
  mkInputs (fun _ => HIGH) (fun _ => 0) (fun _ => failed)
           (fun k => N.of_nat (7 * k + 3)) 0 0 0 0.

(** A hand over the light sensor: every sample is [v]. *)
Definition lit (v : Z) : inputs :=
  mkInputs (fun _ => LOW) (fun _ => v) (fun _ => failed) (fun _ => 0%N) 0 0 0 0.

(** Temperatures 20.5, 20.875, then 21.0 for ever. *)
Definition creeping : inputs :=
  mkInputs (fun _ => LOW) (fun _ => 0)
           (fun k => match k with
                     | O => celsius 41 (-1)
                     | S O => celsius 167 (-3)
                     | _ => celsius 21 0
                     end)
           (fun _ => 0%N) 0 0 0 0.

(** Temperatures 20.5, 21.0, 22.0, then 22.5 for ever. *)
Definition heating : inputs :=
  mkInputs (fun _ => LOW) (fun _ => 0)
           (fun k => match k with
                     | O => celsius 41 (-1)
                     | S O => celsius 21 0
                     | S (S O) => celsius 22 0
                     | _ => celsius 45 (-1)
                     end)
           (fun _ => 0%N) 0 0 0 0.

(** A steady 20.5 degrees. *)
Definition steady : inputs :=
  mkInputs (fun _ => LOW) (fun _ => 0) (fun _ => celsius 41 (-1))
           (fun _ => 0%N) 0 0 0 0.

(** A sensor that does not answer. *)
Definition silent : inputs :=
  mkInputs (fun _ => LOW) (fun _ => 0) (fun _ => failed) (fun _ => 0%N) 0 0 0 0.

Definition watering : World Watering.Globals := mkWorld (board 8 10 touched) tt.

Definition traffic (previous sample : Z) : World Traffic.Globals :=
  mkWorld (board 11 11 (lit sample)) (Traffic.mkGlobals previous previous).

Definition heat (i : inputs) : World Heat.Globals :=
  mkWorld (board 8 10 i) Heat.globals0.

(** Temperatures 20.5, 21.0, 22.0, then a read that fails, then 25.0
    for ever. *)
Definition faltering : inputs :=
  mkInputs (fun _ => LOW) (fun _ => 0)
           (fun k => match k with
                     | O => celsius 41 (-1)
                     | S O => celsius 21 0
                     | S (S O) => celsius 22 0
                     | S (S (S O)) => failed
                     | _ => celsius 25 0
                     end)
           (fun _ => 0%N) 0 0 0 0.

(** A reading of 0 degrees, then 5 degrees for ever. *)
Definition thawing : inputs :=
  mkInputs (fun _ => LOW) (fun _ => 0)
           (fun k => match k with
                     | O => celsius 0 0
                     | _ => celsius 5 0
                     end)
           (fun _ => 0%N) 0 0 0 0.

(** A light level falling by 49 at every sample: 951, 902, 853, ... *)
Definition dimming : inputs :=
  mkInputs (fun _ => LOW) (fun k => 951 - 49 * Z.of_nat k) (fun _ => failed)
           (fun _ => 0%N) 0 0 0 0.

(** A reading of 0 degrees, then 1 degree for ever, met by a sketch that
    has -0.5 degrees as its stored previous and no target armed. *)
Definition zero_crossing : inputs :=
  mkInputs (fun _ => LOW) (fun _ => 0)
           (fun k => match k with
                     | O => celsius 0 0
                     | _ => celsius 1 0
                     end)
           (fun _ => 0%N) 0 0 0 0.

Definition chilled : World Heat.Globals :=
  mkWorld (board 8 10 zero_crossing)
          (Heat.mkGlobals (f32 (-1) (-1)) (f32 (-1) (-1)) 0).

End Demo.

(* ===================================================================== *)
(** * Vocabulary of the further properties *)
(* ===================================================================== *)

(** The time a list of events blocks the sketch: the sum of its delays. *)
Definition duration (t : list event) : Z :=
  fold_right (fun e acc => match e with Delay ms => ms + acc | _ => acc end) 0 t.

(** The buffer of a strip that held [p0] once the frames 0..i of the
    animation have been drawn: off before pixel i, pixel i lit, the rest
    as it was. *)
Definition chaser_pixels (p0 : list Z) (i : nat) : list Z :=
  imap (fun j x => if (j <? i)%nat then off else if (j =? i)%nat then red else x) p0.

(** The state with the strip [Strip] blanked out: everything of the state
    but that strip. *)
Definition rest_of {G} (Strip : strip_id) (w : World G) : World G :=
  mkWorld (set_strip Strip (mkStrip [] [] 0 false) (hw w)) (vars w).

(** The value the next [digitalRead(A3)] returns, what the next [n] reads
    return, and how many of them are HIGH. *)
Definition next_touch {G} (w : World G) : bool :=
  touch (sensors (hw w)) (n_touch (sensors (hw w))).

Definition upcoming_touch {G} (n : nat) (w : World G) : list bool :=
  map (fun k => touch (sensors (hw w)) (k + n_touch (sensors (hw w)))%nat) (seq 0 n).

Definition triggers {G} (n : nat) (w : World G) : nat :=
  length (List.filter (fun t => Bool.eqb t HIGH) (upcoming_touch n w)).

(** A display event renders a value between [lo] and [hi]. *)
Definition renders_within (lo hi : Z) (e : event) : Prop :=
  match e with
  | DigitShowNumberDec _ n _ => lo <= n <= hi
  | _ => True
  end.

(** The values a list of events renders on the display [d], in order. *)
Definition rendered (d : digit_id) (t : list event) : list Z :=
  flat_map (fun e => match e with
                     | DigitShowNumberDec d' n _ =>
                         match d, d' with
                         | D5Digit, D5Digit | D7Digit, D7Digit => [n]
                         | _, _ => []
                         end
                     | _ => []
                     end) t.

(** The values the watering ramp renders from the settled value [V]:
    V, V + 2, ..., V + 58. *)
Definition ramp_values (V : Z) : list Z :=
  map (fun k => V + 2 * Z.of_nat k) (seq 0 30).

(** The next [n] samples of the light sensor. *)
Definition upcoming_light {G} (n : nat) (w : World G) : list Z :=
  map (fun k => light (sensors (hw w)) (k + n_light (sensors (hw w)))%nat) (seq 0 n).

(** The number of samples of a list that lie 50 or more below their
    predecessor, the first being compared with [prev]. *)
Fixpoint drops (prev : Z) (samples : list Z) : nat :=
  match samples with
  | [] => 0%nat
  | s :: rest => Nat.add (if s <=? prev - 50 then 1%nat else 0%nat) (drops s rest)
  end.

(** No sample of the list lies 50 or more below its predecessor. *)
Fixpoint gentle (prev : Z) (samples : list Z) : bool :=
  match samples with
  | [] => true
  | s :: rest => negb (s <=? prev - 50) && gentle s rest
  end.

(** A value of an [int] from which 50 can be subtracted. *)
Definition subtractable (z : Z) : Prop := -32718 <= z <= 32767.

(** The devices of a board in the idle state of the heat and traffic
    sketches. *)
Definition idle_devices (b : Board) : Prop :=
  D2led b = (0, 150, 0) /\
  backlight (I2CDisplay b) = (0, 150, 0) /\
  content (D7 b) = None /\
  forall s, pixels (get_strip s b) = replicate (length (pixels (get_strip s b))) 0 /\
            shown (get_strip s b) = pixels (get_strip s b) /\
            begun (get_strip s b) = true.

(* ===================================================================== *)
(** * Running computations *)
(* ===================================================================== *)

Section Runs.
Context {G : Type}.
Implicit Types w : World G.

Lemma run_bind {A B} (m : M G A) (f : A -> M G B) w :
  (m ≫= f) w =
  (value_of (f (value_of (m w)) (state_of (m w))),
   state_of (f (value_of (m w)) (state_of (m w))),
   trace_of (m w) ++ trace_of (f (value_of (m w)) (state_of (m w)))).
Proof.
  unfold mbind, M_bind, value_of, state_of, trace_of.
  destruct (m w) as [[a w1] t1]; simpl.
  destruct (f a w1) as [[b w2] t2]; reflexivity.
Qed.

Lemma state_bind {A B} (m : M G A) (f : A -> M G B) w :
  state_of ((m ≫= f) w) = state_of (f (value_of (m w)) (state_of (m w))).
Proof. rewrite run_bind. reflexivity. Qed.

Lemma trace_bind {A B} (m : M G A) (f : A -> M G B) w :
  trace_of ((m ≫= f) w) =
  trace_of (m w) ++ trace_of (f (value_of (m w)) (state_of (m w))).
Proof. rewrite run_bind. reflexivity. Qed.

Lemma value_bind {A B} (m : M G A) (f : A -> M G B) w :
  value_of ((m ≫= f) w) = value_of (f (value_of (m w)) (state_of (m w))).
Proof. rewrite run_bind. reflexivity. Qed.

Lemma state_write f e w :
  state_of (write (G:=G) f e w) = mkWorld (f (hw w)) (vars w).
Proof. reflexivity. Qed.

Lemma trace_write f e w : trace_of (write (G:=G) f e w) = [e].
Proof. reflexivity. Qed.

(** An invariant of the body of a [for] loop is an invariant of the
    loop. *)
Lemma for_each_invariant (P : World G -> Prop) (body : Z -> M G unit) :
  (forall i w, P w -> P (state_of (body i w))) ->
  forall l w, P w -> P (state_of (for_each l body w)).
Proof.
  intros Hbody l. induction l as [|i l IH]; intros w Hw.
  - exact Hw.
  - cbn [for_each]. rewrite state_bind. apply IH, Hbody, Hw.
Qed.

(** When the events of the body do not depend on the state, the events of
    the loop are those of its iterations, in order. *)
Lemma for_each_trace (body : Z -> M G unit) (ev : Z -> list event) :
  (forall i w, trace_of (body i w) = ev i) ->
  forall l w, trace_of (for_each l body w) = flat_map ev l.
Proof.
  intros Hbody l. induction l as [|i l IH]; intros w.
  - reflexivity.
  - cbn [for_each flat_map]. rewrite trace_bind, Hbody, IH. reflexivity.
Qed.

End Runs.

(** Unfolds the sequencing of a computation applied to a state. *)
Ltac run :=
  repeat (rewrite ?state_bind, ?trace_bind, ?value_bind;
          cbn [state_of trace_of value_of write delay get_var set_vars read
               mret M_ret fst snd hw vars]).

(* ===================================================================== *)
(** * Arithmetic of the machine numbers *)
(* ===================================================================== *)

Lemma int16_small z : -32768 <= z < 32768 -> int16 z = z.
Proof. intros H. unfold int16. rewrite Z.mod_small by lia. lia. Qed.

Lemma int16_range z : -32768 <= int16 z < 32768.
Proof.
  unfold int16. pose proof (Z.mod_pos_bound (z + 32768) 65536). lia.
Qed.

Lemma uint16_small z : 0 <= z < 65536 -> uint16 z = z.
Proof. intros H. unfold uint16. apply Z.mod_small. lia. Qed.

Lemma uint16_minus_one : uint16 (-1) = 65535.
Proof. reflexivity. Qed.

Lemma Color_off : Driver.Color 0 0 0 = 0.
Proof. reflexivity. Qed.

(** The literal 0.2 is one fifth, correctly rounded. *)
Lemma f_0_2_is_a_fifth : SFdiv prec emax (f32 1 0) (f32 5 0) = f_0_2.
Proof. vm_compute. reflexivity. Qed.

(* ===================================================================== *)
(** * Strips *)
(* ===================================================================== *)

Lemma get_set_strip s v b : get_strip s (set_strip s v b) = v.
Proof. destruct s; reflexivity. Qed.

Lemma set_get_strip s b : set_strip s (get_strip s b) b = b.
Proof. destruct s, b; reflexivity. Qed.

Lemma get_on_strip s f b : get_strip s (on_strip s f b) = f (get_strip s b).
Proof. unfold on_strip. apply get_set_strip. Qed.

Lemma setPixelColor_length n c s :
  length (pixels (Driver.setPixelColor n c s)) = length (pixels s).
Proof.
  unfold Driver.setPixelColor. destruct (uint16 n <? numPixels s); simpl.
  - apply length_insert.
  - reflexivity.
Qed.

(** A write at an index that is not below the number of pixels is
    ignored. *)
Lemma setPixelColor_out_of_range n c s :
  numPixels s <= uint16 n -> Driver.setPixelColor n c s = s.
Proof.
  intros H. unfold Driver.setPixelColor.
  destruct (Z.ltb_spec (uint16 n) (numPixels s)); [lia | reflexivity].
Qed.

Lemma clear_show_pixels s :
  pixels (Driver.show (Driver.clear s)) = replicate (length (pixels s)) 0.
Proof. reflexivity. Qed.

Lemma clear_show_shown s :
  shown (Driver.show (Driver.clear s)) = replicate (length (pixels s)) 0.
Proof. reflexivity. Qed.

Section AnimateStrip.
Context {G : Type}.
Implicit Types w : World G.

Lemma animateStrip_step_length Strip i w :
  strip_length Strip (state_of (animateStrip_step Strip i w)) = strip_length Strip w.
Proof.
  unfold animateStrip_step, Strip_setPixelColor, Strip_show, strip_length.
  run. rewrite !get_on_strip. cbn [Driver.show pixels].
  rewrite !setPixelColor_length. reflexivity.
Qed.

Lemma animateStrip_loop_length Strip l w :
  strip_length Strip (state_of (for_each l (animateStrip_step Strip) w))
  = strip_length Strip w.
Proof.
  apply (for_each_invariant (fun w' => strip_length Strip w' = strip_length Strip w)).
  - intros i w' H. rewrite animateStrip_step_length. exact H.
  - reflexivity.
Qed.

(** The strip after [animateStrip] is the strip left by the loop, cleared
    and committed. *)
Lemma animateStrip_final Strip L w :
  get_strip Strip (hw (state_of (animateStrip Strip L w))) =
  Driver.show (Driver.clear
    (get_strip Strip
       (hw (state_of (for_each (range_up 0 L 1) (animateStrip_step Strip) w))))).
Proof.
  unfold animateStrip, Strip_clear, Strip_show. run.
  rewrite !get_on_strip. reflexivity.
Qed.

Lemma animateStrip_trace Strip L w :
  trace_of (animateStrip Strip L w) = chaser Strip L.
Proof.
  unfold animateStrip, chaser, Strip_clear, Strip_show. run.
  rewrite (for_each_trace _ (chaser_frame Strip)); [reflexivity|].
  intros i w'. reflexivity.
Qed.

End AnimateStrip.

Lemma range_up_unit lo hi :
  lo <= hi ->
  range_up lo hi 1 = map (fun k => lo + Z.of_nat k) (seq 0 (Z.to_nat (hi - lo + 1))).
Proof.
  intros H. unfold range_up.
  destruct (Z.leb_spec lo hi); [|lia]. cbn [andb Z.ltb Z.compare].
  rewrite Z.div_1_r. apply map_ext. intros k. lia.
Qed.

Lemma range_up_first lo hi : lo <= hi -> In lo (range_up lo hi 1).
Proof.
  intros H. rewrite range_up_unit by lia. apply in_map_iff.
  exists 0%nat. split; [lia|]. apply in_seq. lia.
Qed.

Lemma range_up_last lo hi : lo <= hi -> In hi (range_up lo hi 1).
Proof.
  intros H. rewrite range_up_unit by lia. apply in_map_iff.
  exists (Z.to_nat (hi - lo)). split; [lia|]. apply in_seq. lia.
Qed.

Lemma range_up_length lo hi :
  lo <= hi -> length (range_up lo hi 1) = Z.to_nat (hi - lo + 1).
Proof.
  intros H. rewrite range_up_unit by lia.
  rewrite length_map, length_seq. reflexivity.
Qed.

(** C3.  For every strip length L >= 1, after [animateStrip(strip, L)]
    returns the strip still has all its pixels and every one of them is
    off (0,0,0), in the buffer and in the frame committed to the LEDs,
    whatever the strip held before and whatever the loop wrote. *)
Theorem animateStrip_leaves_strip_off
  {G : Type} (w : World G) (Strip : strip_id) (L : Z) (HL : 1 <= L) :
  let s' := get_strip Strip (hw (state_of (animateStrip Strip L w))) in
  numPixels s' = numPixels (get_strip Strip (hw w)) /\
  forall i : nat, (i < length (pixels s'))%nat ->
    pixels s' !! i = Some (Driver.Color 0 0 0) /\
    shown s' !! i = Some (Driver.Color 0 0 0).
Proof.
  cbn zeta. rewrite animateStrip_final.
  pose proof (animateStrip_loop_length Strip (range_up 0 L 1) w) as Hlen.
  unfold strip_length in Hlen. unfold numPixels.
  rewrite clear_show_pixels, clear_show_shown, length_replicate, Hlen.
  split; [reflexivity|].
  intros i Hi. rewrite Color_off. split; apply lookup_replicate_2; exact Hi.
Qed.

Section BoundaryWrites.
Context {G : Type}.
Implicit Types w : World G.

Lemma on_strip_ignored Strip n c (b : Board) :
  numPixels (get_strip Strip b) <= uint16 n ->
  on_strip Strip (Driver.setPixelColor n c) b = b.
Proof.
  intros H. unfold on_strip.
  rewrite setPixelColor_out_of_range by exact H. apply set_get_strip.
Qed.

Lemma Strip_setPixelColor_ignored Strip n c w :
  numPixels (get_strip Strip (hw w)) <= uint16 n ->
  state_of (Strip_setPixelColor Strip n c w) = w.
Proof.
  intros H. unfold Strip_setPixelColor. rewrite state_write.
  rewrite on_strip_ignored by exact H. destruct w; reflexivity.
Qed.

Lemma numPixels_after_write Strip n c w :
  numPixels (get_strip Strip (hw (state_of (Strip_setPixelColor Strip n c w))))
  = numPixels (get_strip Strip (hw w)).
Proof.
  unfold Strip_setPixelColor, numPixels. rewrite state_write. cbn [hw].
  rewrite get_on_strip, setPixelColor_length. reflexivity.
Qed.

End BoundaryWrites.

(** C4.  On a strip of L pixels, [animateStrip(strip, L)] runs its loop
    for i = 0..L, so that [setPixelColor] is called with index -1 (second
    call of the iteration i = 0) and with index L (first call of the
    iteration i = L).  Both calls are ignored by the driver's guard: they
    return normally and leave the whole state, hence every pixel, as it
    was, so that these two iterations do exactly what they would do
    without the out-of-range call. *)
Theorem animateStrip_boundary_writes_are_noops
  {G : Type} (w : World G) (Strip : strip_id) (L : Z)
  (HL : 0 <= L <= 32767)
  (Hlen : numPixels (get_strip Strip (hw w)) = L) :
  trace_of (animateStrip Strip L w) = chaser Strip L /\
  (In 0 (range_up 0 L 1) /\
   nth_error (chaser_frame Strip 0) 1
     = Some (StripSetPixelColor Strip (-1) (Driver.Color 0 0 0))) /\
  (In L (range_up 0 L 1) /\
   nth_error (chaser_frame Strip L) 0
     = Some (StripSetPixelColor Strip L (Driver.Color 200 0 0))) /\
  (forall l, numPixels (get_strip Strip
               (hw (state_of (for_each l (animateStrip_step Strip) w)))) = L) /\
  (forall w' : World G, numPixels (get_strip Strip (hw w')) = L ->
     (forall c, state_of (Strip_setPixelColor Strip (-1) c w') = w') /\
     (forall c, state_of (Strip_setPixelColor Strip L c w') = w') /\
     state_of (animateStrip_step Strip 0 w')
       = state_of ((Strip_setPixelColor Strip 0 (Driver.Color 200 0 0) ;;
                    Strip_show Strip) w') /\
     state_of (animateStrip_step Strip L w')
       = state_of ((Strip_setPixelColor Strip (L - 1) (Driver.Color 0 0 0) ;;
                    Strip_show Strip) w')).
Proof.
  split; [apply animateStrip_trace|].
  split; [split; [apply range_up_first; lia | reflexivity]|].
  split; [split; [apply range_up_last; lia | reflexivity]|].
  split.
  { intros l. pose proof (animateStrip_loop_length Strip l w) as H.
    unfold strip_length in H. unfold numPixels in *. rewrite H. exact Hlen. }
  intros w' Hw'.
  assert (Hm : forall c (w1 : World G), numPixels (get_strip Strip (hw w1)) = L ->
             state_of (Strip_setPixelColor Strip (-1) c w1) = w1).
  { intros c w1 H1. apply Strip_setPixelColor_ignored.
    rewrite H1, uint16_minus_one. lia. }
  assert (HLw : forall c (w1 : World G), numPixels (get_strip Strip (hw w1)) = L ->
             state_of (Strip_setPixelColor Strip L c w1) = w1).
  { intros c w1 H1. apply Strip_setPixelColor_ignored.
    rewrite H1, uint16_small by lia. lia. }
  split; [intros c; apply Hm, Hw'|].
  split; [intros c; apply HLw, Hw'|].
  split.
  - unfold animateStrip_step. rewrite !state_bind.
    change (0 - 1) with (-1).
    rewrite (Hm (Driver.Color 0 0 0)
               (state_of (Strip_setPixelColor Strip 0 (Driver.Color 200 0 0) w'))).
    + reflexivity.
    + rewrite numPixels_after_write. exact Hw'.
  - unfold animateStrip_step. rewrite !state_bind.
    rewrite (HLw (Driver.Color 200 0 0) w' Hw'). reflexivity.
Qed.

(* ===================================================================== *)
(** * Baseline/Reset *)
(* ===================================================================== *)

Lemma strip_reset_idem s : strip_reset (strip_reset s) = strip_reset s.
Proof. unfold strip_reset. cbn [pixels brightness]. rewrite length_replicate. reflexivity. Qed.

Lemma watering_resetAll_state (w : World Watering.Globals) :
  state_of (Watering.resetAll w) = mkWorld (watering_idle (hw w)) (vars w).
Proof. destruct w as [[] g]. reflexivity. Qed.

Lemma heat_resetAll_state (w : World Heat.Globals) :
  state_of (Heat.resetAll w)
  = mkWorld (heat_idle (hw w))
            (Heat.mkGlobals (Heat.TemperatureCurrent (vars w))
                            (Heat.TemperaturePrevious (vars w)) 0).
Proof. destruct w as [[] g]. reflexivity. Qed.

Lemma traffic_resetAll_state (w : World Traffic.Globals) :
  state_of (Traffic.resetAll w) = mkWorld (traffic_idle (hw w)) (vars w).
Proof. destruct w as [[] g]. reflexivity. Qed.

Lemma watering_idle_idem b : watering_idle (watering_idle b) = watering_idle b.
Proof.
  unfold watering_idle. cbn [D2led I2CDisplay D5 D7 A0 A1 A3 sensors mode].
  rewrite !strip_reset_idem. reflexivity.
Qed.

Lemma heat_idle_idem b : heat_idle (heat_idle b) = heat_idle b.
Proof.
  unfold heat_idle. cbn [D2led I2CDisplay D5 D7 A0 A1 A3 sensors].
  rewrite !strip_reset_idem. reflexivity.
Qed.

Lemma traffic_idle_idem b : traffic_idle (traffic_idle b) = traffic_idle b.
Proof.
  unfold traffic_idle. cbn [D2led I2CDisplay D5 D7 A0 A1 A3 sensors].
  rewrite !strip_reset_idem. reflexivity.
Qed.

Lemma watering_resetAll_twice (w : World Watering.Globals) :
  state_of (Watering.resetAll (state_of (Watering.resetAll w)))
  = state_of (Watering.resetAll w).
Proof.
  rewrite !watering_resetAll_state. cbn [hw vars].
  rewrite watering_idle_idem. reflexivity.
Qed.

Lemma heat_resetAll_twice (w : World Heat.Globals) :
  state_of (Heat.resetAll (state_of (Heat.resetAll w)))
  = state_of (Heat.resetAll w).
Proof.
  rewrite !heat_resetAll_state.
  cbn [hw vars Heat.TemperatureCurrent Heat.TemperaturePrevious].
  rewrite heat_idle_idem. reflexivity.
Qed.

Lemma traffic_resetAll_twice (w : World Traffic.Globals) :
  state_of (Traffic.resetAll (state_of (Traffic.resetAll w)))
  = state_of (Traffic.resetAll w).
Proof.
  rewrite !traffic_resetAll_state. cbn [hw vars].
  rewrite traffic_idle_idem. reflexivity.
Qed.

(** C5.  [resetAll] is idempotent in each of the three sketches: from any
    state of the board and of the globals, the state after two successive
    calls (lamp, text panel and backlight, both strips, both digit
    displays, pin A3 and the latched target) is the state after one. *)
Theorem resetAll_idempotent :
  (forall w : World Watering.Globals,
     state_of (Watering.resetAll (state_of (Watering.resetAll w)))
     = state_of (Watering.resetAll w)) /\
  (forall w : World Heat.Globals,
     state_of (Heat.resetAll (state_of (Heat.resetAll w)))
     = state_of (Heat.resetAll w)) /\
  (forall w : World Traffic.Globals,
     state_of (Traffic.resetAll (state_of (Traffic.resetAll w)))
     = state_of (Traffic.resetAll w)).
Proof.
  split; [|split]; intros w.
  - apply watering_resetAll_twice.
  - apply heat_resetAll_twice.
  - apply traffic_resetAll_twice.
Qed.

Lemma watering_resetAll_trace (w : World Watering.Globals) :
  trace_of (Watering.resetAll w) = watering_reset_events.
Proof. reflexivity. Qed.

Lemma heat_resetAll_trace (w : World Heat.Globals) :
  trace_of (Heat.resetAll w) = heat_reset_events.
Proof. reflexivity. Qed.

Lemma traffic_resetAll_trace (w : World Traffic.Globals) :
  trace_of (Traffic.resetAll w) = traffic_reset_events.
Proof. reflexivity. Qed.

(** C10.  Every call of the watering [resetAll] writes LOW to pin A3, the
    line its trigger is read from: the write is among its calls and the
    level latched on the pin is LOW afterwards.  The heat and traffic
    [resetAll] make no call on a pin, and leave pin A3 and the state of
    their sensor as they were. *)
Theorem watering_resetAll_writes_trigger_pin :
  (forall w : World Watering.Globals,
     trace_of (Watering.resetAll w) = watering_reset_events /\
     In (DigitalWrite PinA3 LOW) (trace_of (Watering.resetAll w)) /\
     latch (A3 (hw (state_of (Watering.resetAll w)))) = LOW) /\
  (forall w : World Heat.Globals,
     trace_of (Heat.resetAll w) = heat_reset_events /\
     forallb (fun e => negb (is_pin_event e)) (trace_of (Heat.resetAll w)) = true /\
     A3 (hw (state_of (Heat.resetAll w))) = A3 (hw w) /\
     sensors (hw (state_of (Heat.resetAll w))) = sensors (hw w)) /\
  (forall w : World Traffic.Globals,
     trace_of (Traffic.resetAll w) = traffic_reset_events /\
     forallb (fun e => negb (is_pin_event e)) (trace_of (Traffic.resetAll w)) = true /\
     A3 (hw (state_of (Traffic.resetAll w))) = A3 (hw w) /\
     sensors (hw (state_of (Traffic.resetAll w))) = sensors (hw w)).
Proof.
  split; [|split]; intros w.
  - rewrite watering_resetAll_trace, watering_resetAll_state.
    split; [reflexivity|]. split; [|reflexivity].
    unfold watering_reset_events. rewrite !in_app_iff. cbn [In]. tauto.
  - rewrite heat_resetAll_trace, heat_resetAll_state. repeat split.
  - rewrite traffic_resetAll_trace, traffic_resetAll_state. repeat split.
Qed.

(* ===================================================================== *)
(** * The watering sequence *)
(* ===================================================================== *)

Lemma watering_sequence_trace_raw (w : World Watering.Globals) :
  trace_of (Watering.sequence w)
  = watering_events (fun V i => int16 (V + i))
      (fun k => int16 (Driver.random_range 20 41 (raw_draw w k))).
Proof. destruct w as [[l p d5 d7 a0 a1 a3 [t li dh r nt nl nd nr]] g]. reflexivity. Qed.

Lemma flat_map_ext_in {A B} (f g : A -> list B) (l : list A) :
  (forall a, In a l -> f a = g a) -> flat_map f l = flat_map g l.
Proof.
  intros H. rewrite !flat_map_concat_map. f_equal. apply map_ext_in, H.
Qed.

(** The sequence depends on the draws 0..10 and on the ramp values
    only. *)
Lemma watering_events_ext (plus1 plus2 : Z -> Z -> Z) (d1 d2 : nat -> Z) :
  (forall k, (k <= 10)%nat -> d1 k = d2 k) ->
  (forall k, (k < 30)%nat ->
     plus1 (d2 10%nat) (2 * Z.of_nat k) = plus2 (d2 10%nat) (2 * Z.of_nat k)) ->
  watering_events plus1 d1 = watering_events plus2 d2.
Proof.
  intros Hd Hp. unfold watering_events. rewrite (Hd 10%nat) by lia.
  assert (Hs : slot_events d1 = slot_events d2).
  { unfold slot_events. apply flat_map_ext_in. intros k Hk.
    apply in_seq in Hk. rewrite Hd by lia. reflexivity. }
  assert (Hr : ramp_events plus1 (d2 10%nat) = ramp_events plus2 (d2 10%nat)).
  { unfold ramp_events. apply flat_map_ext_in. intros k Hk.
    apply in_seq in Hk. unfold ramp_frame. cbn zeta.
    rewrite Hp by lia. reflexivity. }
  rewrite Hs, Hr. reflexivity.
Qed.

(** A draw of [random(20, 41)] received by an [int] lies in 20..40. *)
Lemma random_level_value (raw : N) :
  int16 (Driver.random_range 20 41 raw) = Z.of_N raw mod 21 + 20.
Proof.
  unfold Driver.random_range. cbn [Z.geb Z.compare Pos.compare Pos.compare_cont].
  change (41 - 20) with 21.
  pose proof (Z.mod_pos_bound (Z.of_N raw) 21). apply int16_small. lia.
Qed.

Lemma watering_loop_trace_high (w : World Watering.Globals) :
  touch (sensors (hw w)) (n_touch (sensors (hw w))) = HIGH ->
  trace_of (Watering.loop w)
  = trace_of (Watering.sequence (state_of (digitalRead_A3 w))).
Proof.
  intros H. unfold Watering.loop. rewrite trace_bind.
  change (value_of (digitalRead_A3 w))
    with (touch (sensors (hw w)) (n_touch (sensors (hw w)))).
  rewrite H. reflexivity.
Qed.

Lemma watering_loop_trace_low (w : World Watering.Globals) :
  touch (sensors (hw w)) (n_touch (sensors (hw w))) = LOW ->
  trace_of (Watering.loop w) = [].
Proof.
  intros H. unfold Watering.loop. rewrite trace_bind.
  change (value_of (digitalRead_A3 w))
    with (touch (sensors (hw w)) (n_touch (sensors (hw w)))).
  rewrite H. reflexivity.
Qed.

(** C1.  Whenever [digitalRead(A3)] returns HIGH, [loop] of the watering
    sketch performs exactly the fixed sequence [watering_events], which
    depends on nothing but the eleven values drawn (each in 20..40): ten
    renders of a drawn value on the first display 100 ms apart, then the
    final value V; strip A animated for i = 0..8 (9 steps) at 400 ms; V
    rendered 5 times on the second display at brightness 0,1,2,3,4; strip
    B animated for 11 steps; the warning text held 5 s with blinking; the
    instruction text; 30 ramp steps (i = 0,2,..,58, 150 ms each) setting
    the backlight and rendering V+i on both displays; the success text
    held 2 s; the lamp set green and held 5 s; and finally the calls of
    [resetAll]. *)
Theorem watering_loop_runs_fixed_sequence
  (w : World Watering.Globals)
  (Htrigger : touch (sensors (hw w)) (n_touch (sensors (hw w))) = HIGH) :
  let draw := fun k => Z.of_N (raw_draw w k) mod 21 + 20 in
  trace_of (Watering.loop w) = watering_events Z.add draw /\
  (forall k, 20 <= draw k <= 40) /\
  range_up 0 Watering.intA0LEDStripNumber 1 = [0; 1; 2; 3; 4; 5; 6; 7; 8] /\
  length (range_up 0 Watering.intA1LEDStripNumber 1) = 11%nat /\
  range_up 0 59 2 = map (fun k => 2 * Z.of_nat k) (seq 0 30) /\
  state_of (Watering.loop w)
  = state_of (Watering.resetAll (state_of (Watering.loop w))).
Proof.
  intros draw.
  assert (Hrange : forall k, 20 <= draw k <= 40).
  { intros k. unfold draw. pose proof (Z.mod_pos_bound (Z.of_N (raw_draw w k)) 21). lia. }
  split; [|split; [exact Hrange|repeat split]].
  - rewrite watering_loop_trace_high by exact Htrigger.
    rewrite watering_sequence_trace_raw.
    apply watering_events_ext.
    + intros k _. unfold draw. rewrite random_level_value. reflexivity.
    + intros k Hk. apply int16_small. pose proof (Hrange 10%nat). lia.
  - unfold Watering.loop. rewrite state_bind.
    change (value_of (digitalRead_A3 w))
      with (touch (sensors (hw w)) (n_touch (sensors (hw w)))).
    rewrite Htrigger. cbn [Bool.eqb HIGH].
    unfold Watering.sequence. rewrite !state_bind.
    symmetry. apply watering_resetAll_twice.
Qed.

(* ===================================================================== *)
(** * The traffic trigger *)
(* ===================================================================== *)

Lemma traffic_sequence_trace (w : World Traffic.Globals) :
  trace_of (Traffic.sequence w) = traffic_sequence_events.
Proof. reflexivity. Qed.

Lemma traffic_sequence_vars (w : World Traffic.Globals) :
  vars (state_of (Traffic.sequence w)) = vars w.
Proof. reflexivity. Qed.

Lemma traffic_sequence_fires : fires traffic_sequence_events = 1%nat.
Proof. reflexivity. Qed.

Lemma traffic_loop_run (w : World Traffic.Globals) :
  Traffic.loop w =
  let r := (if drop_detected w then Traffic.sequence else mret tt) (seen w) in
  (tt,
   mkWorld (hw (state_of r))
           (Traffic.mkGlobals (Traffic.LightCurrent (vars (state_of r)))
                              (Traffic.LightCurrent (vars (state_of r)))),
   Delay 1000 :: trace_of r ++ []).
Proof.
  destruct w as [b [c p]].
  unfold Traffic.loop, seen, drop_detected, next_light, mbind, M_bind.
  cbn [delay analogRead_A3 read Traffic.set_LightCurrent Traffic.set_LightPrevious
       set_vars get_var vars hw Traffic.LightCurrent Traffic.LightPrevious
       state_of fst snd app].
  match goal with
  | |- context [(if ?c then Traffic.sequence else ?e) ?x] =>
      destruct ((if c then Traffic.sequence else e) x) as [[[] w2] t2]
  end.
  reflexivity.
Qed.

Lemma traffic_loop_trace (w : World Traffic.Globals) :
  trace_of (Traffic.loop w)
  = if drop_detected w then Delay 1000 :: traffic_sequence_events else [Delay 1000].
Proof.
  rewrite traffic_loop_run. cbn zeta. unfold trace_of at 1. cbn [snd].
  destruct (drop_detected w).
  - rewrite traffic_sequence_trace, app_nil_r. reflexivity.
  - reflexivity.
Qed.

Lemma traffic_loop_vars (w : World Traffic.Globals) :
  vars (state_of (Traffic.loop w)) = Traffic.mkGlobals (next_light w) (next_light w).
Proof.
  rewrite traffic_loop_run. cbn zeta. unfold state_of at 1. cbn [fst snd vars].
  destruct (drop_detected w).
  - rewrite traffic_sequence_vars. reflexivity.
  - reflexivity.
Qed.

Lemma traffic_loop_fires (w : World Traffic.Globals) :
  fires (trace_of (Traffic.loop w)) = if drop_detected w then 1%nat else 0%nat.
Proof.
  rewrite traffic_loop_trace. destruct (drop_detected w); reflexivity.
Qed.

(** C7.  The traffic sketch fires exactly when current <= previous - 50
    (previous being an [int] from which 50 can be subtracted): then
    [loop] performs the parking-lot-full sequence once, otherwise it
    performs nothing but its delay.  With previous = 500 a sample of 450
    fires and a sample of 451 does not.  In both cases previous equals
    the sample when [loop] returns. *)
Theorem traffic_fires_iff_drop_of_50
  (w : World Traffic.Globals)
  (Hprev : -32718 <= Traffic.LightPrevious (vars w) <= 32767) :
  let current := next_light w in
  let previous := Traffic.LightPrevious (vars w) in
  (current <= previous - 50 ->
     trace_of (Traffic.loop w) = Delay 1000 :: traffic_sequence_events) /\
  (~ current <= previous - 50 -> trace_of (Traffic.loop w) = [Delay 1000]) /\
  (fires (trace_of (Traffic.loop w)) = 1%nat <-> current <= previous - 50) /\
  (fires (trace_of (Traffic.loop w)) = 0%nat <-> ~ current <= previous - 50) /\
  (previous = 500 -> current = 450 -> fires (trace_of (Traffic.loop w)) = 1%nat) /\
  (previous = 500 -> current = 451 -> fires (trace_of (Traffic.loop w)) = 0%nat) /\
  Traffic.LightPrevious (vars (state_of (Traffic.loop w))) = current.
Proof.
  intros current previous.
  assert (Hc : drop_detected w = true <-> current <= previous - 50).
  { unfold drop_detected, Traffic.LightDifference. fold current. fold previous.
    rewrite int16_small by (unfold previous; lia). apply Z.leb_le. }
  assert (Ht := traffic_loop_trace w).
  assert (Hfire : fires (trace_of (Traffic.loop w)) = 1%nat <-> current <= previous - 50).
  { rewrite traffic_loop_fires, <- Hc.
    destruct (drop_detected w); split; congruence. }
  assert (Hidle : fires (trace_of (Traffic.loop w)) = 0%nat <-> ~ current <= previous - 50).
  { rewrite traffic_loop_fires, <- Hc.
    destruct (drop_detected w); split; congruence. }
  split; [|split; [|split; [exact Hfire|split; [exact Hidle|split; [|split]]]]].
  - intros H. apply Hc in H. rewrite Ht, H. reflexivity.
  - intros H. rewrite Ht. destruct (drop_detected w); [|reflexivity].
    exfalso. apply H, Hc. reflexivity.
  - intros Hp Hcur. apply Hfire. lia.
  - intros Hp Hcur. apply Hidle. lia.
  - rewrite traffic_loop_vars. reflexivity.
Qed.

(** C9.  [LightPrevious] starts at 0 and [setup] leaves it there, so on
    the first poll after startup no sample in 0..1023 fires the sequence:
    [loop] performs only its delay and stores the sample as the new
    previous. *)
Theorem traffic_no_fire_on_first_poll
  (b : Board)
  (Hsample : 0 <= light (sensors b) (n_light (sensors b)) <= 1023) :
  let boot := state_of (Traffic.setup (mkWorld b Traffic.globals0)) in
  let sample := light (sensors b) (n_light (sensors b)) in
  Traffic.LightPrevious (vars boot) = 0 /\
  next_light boot = sample /\
  trace_of (Traffic.loop boot) = [Delay 1000] /\
  fires (trace_of (Traffic.loop boot)) = 0%nat /\
  vars (state_of (Traffic.loop boot)) = Traffic.mkGlobals sample sample.
Proof.
  intros boot sample.
  assert (Hp : Traffic.LightPrevious (vars boot) = 0) by reflexivity.
  assert (Hn : next_light boot = sample) by (destruct b; reflexivity).
  assert (Ht : trace_of (Traffic.loop boot) = [Delay 1000]).
  { rewrite traffic_loop_trace. unfold drop_detected.
    rewrite Hp, Hn. change (int16 (0 - Traffic.LightDifference)) with (-50).
    destruct (Z.leb_spec sample (-50)); [lia | reflexivity]. }
  repeat split; try assumption.
  - rewrite Ht. reflexivity.
  - rewrite traffic_loop_vars, Hn. reflexivity.
Qed.


(* ===================================================================== *)
(** * The heat trigger *)
(* ===================================================================== *)

Lemma heat_alert_trace (w : World Heat.Globals) :
  trace_of (Heat.alert w)
  = heat_alert_events (float_to_int (Heat.TemperatureCurrent (vars w))).
Proof. reflexivity. Qed.

Lemma heat_alert_vars (w : World Heat.Globals) :
  vars (state_of (Heat.alert w))
  = Heat.mkGlobals (temperature (next_reading w)) (temperature (next_reading w)) 0.
Proof. reflexivity. Qed.

Lemma heat_alert_sensors (w : World Heat.Globals) :
  dht (sensors (hw (state_of (Heat.alert w)))) = dht (sensors (hw w)) /\
  n_dht (sensors (hw (state_of (Heat.alert w)))) = S (dht_reads w).
Proof. split; reflexivity. Qed.

Lemma heat_alert_fires n : fires (heat_alert_events n) = 1%nat.
Proof. reflexivity. Qed.

Lemma heat_loop_run (w : World Heat.Globals) :
  Heat.loop w =
  if status (next_reading w) =? 0
  then let r := Heat.evaluate (sampled w) in
       (tt,
        mkWorld (hw (state_of r))
                (Heat.mkGlobals (Heat.TemperatureCurrent (vars (state_of r)))
                                (Heat.TemperatureCurrent (vars (state_of r)))
                                (Heat.TemperatureTarget (vars (state_of r)))),
        Delay 1500
        :: DigitShowNumberDec D5Digit (float_to_int (temperature (next_reading w))) false
        :: trace_of r ++ [])
  else (tt, state_of (readTempAndHumidity w), [Delay 1500]).
Proof.
  destruct w as [b [c p t]].
  unfold Heat.loop, sampled, seeded, next_reading, mbind, M_bind.
  cbn [delay readTempAndHumidity read Heat.set_TemperatureCurrent
       Heat.set_TemperaturePrevious Digit_showNumberDec write
       set_vars get_var vars hw Heat.TemperatureCurrent Heat.TemperaturePrevious
       Heat.TemperatureTarget state_of trace_of fst snd app].
  destruct (status _ =? 0); [|reflexivity].
  cbn [delay readTempAndHumidity read Heat.set_TemperatureCurrent
       Heat.set_TemperaturePrevious Digit_showNumberDec write
       set_vars get_var vars hw Heat.TemperatureCurrent Heat.TemperaturePrevious
       Heat.TemperatureTarget state_of trace_of fst snd app].
  destruct (feqb p f_zero);
  cbn [delay readTempAndHumidity read Heat.set_TemperatureCurrent
       Heat.set_TemperaturePrevious Digit_showNumberDec write
       set_vars get_var vars hw Heat.TemperatureCurrent Heat.TemperaturePrevious
       Heat.TemperatureTarget state_of trace_of fst snd app mret M_ret];
  match goal with
  | |- context [Heat.evaluate ?x] => destruct (Heat.evaluate x) as [[[] w2] t2]
  end; reflexivity.
Qed.

Lemma heat_evaluate_run (w : World Heat.Globals) :
  let cur := Heat.TemperatureCurrent (vars w) in
  let prev := Heat.TemperaturePrevious (vars w) in
  let tgt := Heat.TemperatureTarget (vars w) in
  Heat.evaluate w =
  if fleb (fadd prev f_0_2) cur
  then let tgt' := if tgt =? 0 then int16 (float_to_int cur + Heat.MaxCelsiusIncrease)
                   else tgt in
       let r := (if float_to_int cur >=? tgt' then Heat.alert else mret tt)
                  (mkWorld (hw w) (Heat.mkGlobals cur prev tgt')) in
       (tt, state_of r, trace_of r)
  else if fltb cur (fadd prev f_0_2) then Heat.resetAll w
  else (tt, w, []).
Proof.
  destruct w as [b [c p t]]. cbn zeta.
  unfold Heat.evaluate, mbind, M_bind.
  cbn [get_var vars hw Heat.TemperatureCurrent Heat.TemperaturePrevious
       Heat.TemperatureTarget].
  destruct (fleb _ _).
  - cbn [get_var vars hw Heat.TemperatureCurrent Heat.TemperaturePrevious
         Heat.TemperatureTarget app].
    destruct (t =? 0);
    cbn [get_var set_vars vars hw Heat.TemperatureCurrent Heat.TemperaturePrevious
         Heat.TemperatureTarget Heat.set_TemperatureTarget app mret M_ret];
    match goal with
    | |- context [(if ?c then Heat.alert else ?e) ?x] =>
        destruct ((if c then Heat.alert else e) x) as [[[] w2] t2]
    end; reflexivity.
  - destruct (fltb _ _); reflexivity.
Qed.

Lemma trace_tuple {G A} (a : A) (s : World G) (t : list event) : trace_of (a, s, t) = t.
Proof. reflexivity. Qed.
Lemma state_tuple {G A} (a : A) (s : World G) (t : list event) : state_of (a, s, t) = s.
Proof. reflexivity. Qed.

Lemma hw_mkWorld {G} (b : Board) (g : G) : hw (mkWorld b g) = b.
Proof. reflexivity. Qed.
Lemma dht_reads_mkWorld {G} (b : Board) (g : G) :
  dht_reads (mkWorld b g) = n_dht (sensors b).
Proof. reflexivity. Qed.

Lemma heat_loop_effect (w : World Heat.Globals) :
  trace_of (Heat.loop w) = poll_events w /\
  vars (state_of (Heat.loop w)) = poll_vars w /\
  dht (sensors (hw (state_of (Heat.loop w)))) = dht (sensors (hw w)) /\
  dht_reads (state_of (Heat.loop w)) = poll_reads w.
Proof.
  rewrite heat_loop_run.
  unfold poll_events, poll_vars, poll_reads, classify, read_ok.
  destruct (status (next_reading w) =? 0); [|repeat split].
  cbn zeta. rewrite heat_evaluate_run. cbn zeta.
  change (Heat.TemperatureCurrent (vars (sampled w))) with (sample w).
  change (Heat.TemperaturePrevious (vars (sampled w))) with (baseline w).
  change (Heat.TemperatureTarget (vars (sampled w)))
    with (Heat.TemperatureTarget (vars w)).
  change (if Heat.TemperatureTarget (vars w) =? 0
          then int16 (float_to_int (sample w) + Heat.MaxCelsiusIncrease)
          else Heat.TemperatureTarget (vars w)) with (armed_target w).
  change (fleb (fadd (baseline w) f_0_2) (sample w)) with (rising w).
  change (fltb (sample w) (fadd (baseline w) f_0_2)) with (below_band w).
  change (float_to_int (sample w) >=? armed_target w) with (target_reached w).
  destruct (rising w).
  - destruct (target_reached w).
    + rewrite !trace_tuple, !state_tuple, app_nil_r.
      rewrite heat_alert_trace, heat_alert_vars.
      destruct (heat_alert_sensors
                  (mkWorld (hw (sampled w))
                     (Heat.mkGlobals (sample w) (baseline w) (armed_target w))))
        as [Hd Hn].
      rewrite !hw_mkWorld, Hd. rewrite (dht_reads_mkWorld (hw (state_of _))), Hn.
      destruct w as [b g]. repeat split.
    + destruct w as [b g]. repeat split.
  - destruct (below_band w).
    + rewrite !trace_tuple, !state_tuple, app_nil_r.
      rewrite heat_resetAll_trace, heat_resetAll_state.
      destruct w as [b g]. repeat split.
    + destruct w as [b g]. repeat split.
Qed.

(** Comparisons of floats: [<] excludes [>=] the other way round. *)
Lemma SFcompare_Lt_Gt (x y : spec_float) :
  SFcompare x y = Some Lt -> SFcompare y x = Some Gt.
Proof.
  destruct x as [sx|sx| |sx mx ex], y as [sy|sy| |sy my ey]; cbn;
    try discriminate; try (destruct sx; discriminate || reflexivity);
    try (destruct sy; discriminate || reflexivity);
    try (destruct sx, sy; discriminate || reflexivity).
  rewrite (Z.compare_antisym ex ey).
  change (PosDef.Pos.compare_cont Eq my mx) with (Pos.compare my mx).
  change (PosDef.Pos.compare_cont Eq mx my) with (Pos.compare mx my).
  rewrite (Pos.compare_antisym mx my).
  destruct sx, sy; try discriminate; try reflexivity;
    destruct (ex ?= ey); cbn; try discriminate; try reflexivity;
    destruct (Pos.compare mx my); cbn; discriminate || reflexivity.
Qed.

Lemma fltb_not_fleb (x y : float) : fltb x y = true -> fleb y x = false.
Proof.
  unfold fltb, fleb, SFltb, SFleb. intros H.
  destruct (SFcompare x y) as [[]|] eqn:E; try discriminate.
  rewrite (SFcompare_Lt_Gt _ _ E). reflexivity.
Qed.

Lemma fires_app (t1 t2 : list event) : fires (t1 ++ t2) = (fires t1 + fires t2)%nat.
Proof. unfold fires. rewrite List.filter_app, length_app. reflexivity. Qed.

Lemma after_0 w : after 0 w = w.
Proof. reflexivity. Qed.

Lemma after_S k w : after (S k) w = after k (state_of (Heat.loop w)).
Proof. unfold after. cbn [Heat.polls]. rewrite state_bind. reflexivity. Qed.

Lemma polls_S_trace k w :
  trace_of (Heat.polls (S k) w)
  = trace_of (Heat.loop w) ++ trace_of (Heat.polls k (state_of (Heat.loop w))).
Proof. cbn [Heat.polls]. rewrite trace_bind. reflexivity. Qed.

Lemma heat_loop_trace w : trace_of (Heat.loop w) = poll_events w.
Proof. apply heat_loop_effect. Qed.

Lemma heat_loop_vars w : vars (state_of (Heat.loop w)) = poll_vars w.
Proof. apply heat_loop_effect. Qed.

Lemma heat_loop_fires w :
  fires (trace_of (Heat.loop w)) = match classify w with Fired => 1%nat | _ => 0%nat end.
Proof.
  rewrite heat_loop_trace. unfold poll_events.
  destruct (classify w); reflexivity.
Qed.

Lemma classify_relaxed w :
  read_ok w = true -> below_band w = true -> classify w = Relaxed.
Proof.
  intros Hok Hb. unfold classify. rewrite Hok.
  assert (Hr : rising w = false) by (apply fltb_not_fleb, Hb).
  rewrite Hr, Hb. reflexivity.
Qed.

Lemma classify_fired w :
  classify w = Fired <->
  read_ok w = true /\ rising w = true /\ target_reached w = true.
Proof.
  unfold classify.
  destruct (read_ok w), (rising w), (target_reached w), (below_band w);
    split; try discriminate; try tauto; intros (? & ? & ?); discriminate.
Qed.

Lemma classify_held w :
  read_ok w = true -> rising w = true -> target_reached w = false ->
  classify w = Held.
Proof. intros H1 H2 H3. unfold classify. rewrite H1, H2, H3. reflexivity. Qed.

Lemma flat_map_seq_S {A} (f : nat -> list A) n :
  flat_map f (seq 0 (S n)) = f 0%nat ++ flat_map (fun k => f (S k)) (seq 0 n).
Proof.
  cbn [seq flat_map]. f_equal. rewrite <- seq_shift.
  rewrite !flat_map_concat_map, map_map. reflexivity.
Qed.

Lemma heat_in_band_run n : forall w,
  (forall k, (k < n)%nat ->
     read_ok (after k w) = true /\ below_band (after k w) = true) ->
  trace_of (Heat.polls n w) = flat_map (fun k => relax_events (after k w)) (seq 0 n) /\
  fires (trace_of (Heat.polls n w)) = 0%nat.
Proof.
  induction n as [|n IH]; intros w H.
  - split; reflexivity.
  - destruct (H 0%nat ltac:(lia)) as [Hok Hb]. rewrite after_0 in Hok, Hb.
    assert (Hc := classify_relaxed w Hok Hb).
    destruct (IH (state_of (Heat.loop w))) as [IHt IHf].
    { intros k Hk. rewrite <- after_S. apply H. lia. }
    rewrite polls_S_trace, fires_app, IHf, heat_loop_fires, Hc.
    split; [|reflexivity].
    rewrite flat_map_seq_S, after_0, IHt, heat_loop_trace.
    unfold poll_events. rewrite Hc. f_equal.
    apply flat_map_ext. intros k. rewrite after_S. reflexivity.
Qed.

Lemma armed_target_of w T :
  T <> 0 -> Heat.TemperatureTarget (vars w) = T -> armed_target w = T.
Proof.
  intros HT Hw. unfold armed_target. rewrite Hw.
  destruct (Z.eqb_spec T 0); [contradiction | reflexivity].
Qed.

Lemma float_to_int_range (x : float) : -32768 <= float_to_int x < 32768.
Proof.
  destruct x; cbn [float_to_int]; try lia. apply int16_range.
Qed.

Lemma armed_target_fresh w :
  Heat.TemperatureTarget (vars w) = 0 -> float_to_int (sample w) < 32767 ->
  armed_target w = float_to_int (sample w) + 1.
Proof.
  intros Hw Hlt. unfold armed_target, Heat.MaxCelsiusIncrease. rewrite Hw.
  cbn [Z.eqb]. apply int16_small.
  pose proof (float_to_int_range (sample w)). lia.
Qed.

Lemma after_snoc k : forall w, after (S k) w = state_of (Heat.loop (after k w)).
Proof.
  induction k as [|k IH]; intros w.
  - rewrite after_S, !after_0. reflexivity.
  - rewrite after_S, IH, <- after_S. reflexivity.
Qed.

(** From an armed target T: while the samples keep rising and stay below
    T nothing fires; the first rising sample that reaches T fires. *)
Lemma heat_rising_run n : forall w T,
  T <> 0 -> Heat.TemperatureTarget (vars w) = T ->
  (forall k, (k <= n)%nat ->
     read_ok (after k w) = true /\ rising (after k w) = true) ->
  (forall k, (k < n)%nat -> float_to_int (sample (after k w)) < T) ->
  float_to_int (sample (after n w)) >= T ->
  fires (trace_of (Heat.polls n w)) = 0%nat /\
  fires (trace_of (Heat.polls (S n) w)) = 1%nat /\
  vars (after (S n) w)
  = Heat.mkGlobals (resample (after n w)) (resample (after n w)) 0.
Proof.
  induction n as [|n IH]; intros w T HT Hw Hrise Hlow Hreach.
  - destruct (Hrise 0%nat ltac:(lia)) as [Hok Hr]. rewrite after_0 in *.
    assert (Hc : classify w = Fired).
    { apply classify_fired. repeat split; [exact Hok | exact Hr |].
      unfold target_reached. rewrite (armed_target_of w T HT Hw).
      apply Z.geb_le. lia. }
    rewrite polls_S_trace, fires_app, heat_loop_fires, Hc.
    split; [reflexivity|]. split; [reflexivity|].
    rewrite after_S, after_0, heat_loop_vars. unfold poll_vars. rewrite Hc.
    reflexivity.
  - destruct (Hrise 0%nat ltac:(lia)) as [Hok Hr]. rewrite after_0 in Hok, Hr.
    assert (Hlt := Hlow 0%nat ltac:(lia)). rewrite after_0 in Hlt.
    assert (Hc : classify w = Held).
    { apply classify_held; [exact Hok | exact Hr |].
      unfold target_reached. rewrite (armed_target_of w T HT Hw).
      destruct (Z.geb_spec (float_to_int (sample w)) T); [lia | reflexivity]. }
    destruct (IH (state_of (Heat.loop w)) T HT) as (IH0 & IHf & IHv).
    + rewrite heat_loop_vars. unfold poll_vars. rewrite Hc.
      apply (armed_target_of w T HT Hw).
    + intros k Hk. rewrite <- after_S. apply Hrise. lia.
    + intros k Hk. rewrite <- after_S. apply Hlow. lia.
    + rewrite <- after_S. exact Hreach.
    + rewrite (polls_S_trace (S n)), (polls_S_trace n), !fires_app,
        heat_loop_fires, Hc, IHf, IH0.
      split; [reflexivity|]. split; [reflexivity|].
      rewrite after_S, IHv, <- after_S. reflexivity.
Qed.

(** On non-negative floats the cast is [floor], up to the width of
    [int]. *)
Lemma float_to_int_is_floor (m : positive) (e : Z) :
  float_to_int (S754_finite false m e) = int16 (float_floor (S754_finite false m e)).
Proof.
  cbn [float_to_int float_floor]. destruct e as [|p|p]; f_equal.
  - rewrite Z.shiftl_mul_pow2 by lia. reflexivity.
  - rewrite Z.shiftl_mul_pow2 by lia. reflexivity.
  - apply Z.shiftr_div_pow2. lia.
Qed.

(** C8.  When [readTempAndHumidity] reports a failure (a status other
    than 0) the poll does nothing but its delay: no device call is made
    and every device of the board is as before, current, previous and
    target keep their values, and the next poll reads the next sample. *)
Theorem heat_failed_read_skips_poll
  (w : World Heat.Globals) (Hfail : status (next_reading w) <> 0) :
  trace_of (Heat.loop w) = [Delay 1500] /\
  vars (state_of (Heat.loop w)) = vars w /\
  set_sensors (sensors (hw w)) (hw (state_of (Heat.loop w))) = hw w /\
  fires (trace_of (Heat.loop w)) = 0%nat /\
  next_reading (state_of (Heat.loop w)) = dht (sensors (hw w)) (S (dht_reads w)).
Proof.
  rewrite heat_loop_run.
  destruct (Z.eqb_spec (status (next_reading w)) 0) as [H|_]; [contradiction|].
  destruct w as [[l p d5 d7 a0 a1 a3 [t li dh r nt nl nd nr]] g].
  repeat split.
Qed.

(** C6.  On every poll whose sample is below previous + 0.2 (previous
    being the value the comparison uses: the stored one or, when that is
    the sentinel 0, the sample itself) the heat sketch performs its
    delay, renders the sample and goes straight to [resetAll]: no call
    of the alert sequence is made and nothing fires; the target is
    unarmed afterwards.  Hence [n] polls that all stay within the band
    perform [n] such resets and never fire. *)
Theorem heat_below_band_resets_without_alert
  (w : World Heat.Globals) (n : nat)
  (Hband : forall k, (k < n)%nat ->
     read_ok (after k w) = true /\ below_band (after k w) = true) :
  (forall k, (k < n)%nat ->
     trace_of (Heat.loop (after k w))
       = [Delay 1500;
          DigitShowNumberDec D5Digit (float_to_int (sample (after k w))) false]
         ++ trace_of (Heat.resetAll (after k w)) /\
     classify (after k w) = Relaxed /\
     fires (trace_of (Heat.loop (after k w))) = 0%nat /\
     Heat.TemperatureTarget (vars (after (S k) w)) = 0) /\
  trace_of (Heat.polls n w) = flat_map (fun k => relax_events (after k w)) (seq 0 n) /\
  fires (trace_of (Heat.polls n w)) = 0%nat.
Proof.
  split; [|apply heat_in_band_run, Hband].
  intros k Hk. destruct (Hband k Hk) as [Hok Hb].
  assert (Hc := classify_relaxed _ Hok Hb).
  rewrite heat_loop_fires, heat_loop_trace, after_snoc, heat_loop_vars.
  unfold poll_events, poll_vars. rewrite Hc, heat_resetAll_trace.
  repeat split.
Qed.

(** C2, as the sketch has it.  Throughout, previous is the value the
    comparison of the poll reads: the stored previous or, when the stored
    previous equals 0, the sample itself (lines 142-144), so that a
    sample met with a stored previous of 0 is compared with itself.  In
    a poll whose read succeeded:
    - a sample with current >= previous + 0.2 met with no target armed
      (target = 0) and with (int)current < 32767 arms the target to
      (int)current + 1 (the cast truncates, which is [floor] for the
      temperatures at or above 0) and does not fire;
    - when a target is armed (target <> 0) the alert fires exactly when
      current >= previous + 0.2 and (int)current >= target;
    - a sample below previous + 0.2 unarms the target without firing;
    - a fire leaves the target unarmed (0) and current and previous equal
      to the temperature sampled again at the end of the sequence;
    - along n + 2 polls whose reads succeed, that start with no target
      armed and in each of which current >= previous + 0.2, when the
      first sample has (int)current below 32767 and other than -1, so
      that it arms a target T = (int)current + 1 other than 0, the next
      n samples have (int)current < T and the last has (int)current >= T:
      nothing fires in the first n + 1 polls, exactly one alert fires in
      the n + 2, at the last, after which the target is 0 and current
      and previous are the temperature sampled again. *)
Theorem heat_alert_fires_when_rising_reaches_target
  (w : World Heat.Globals) (Hok : read_ok w = true) :
  let current := sample w in
  let target := Heat.TemperatureTarget (vars w) in
  (rising w = true -> target = 0 -> float_to_int current < 32767 ->
     Heat.TemperatureTarget (vars (state_of (Heat.loop w))) = float_to_int current + 1 /\
     fires (trace_of (Heat.loop w)) = 0%nat) /\
  (target <> 0 ->
     (fires (trace_of (Heat.loop w)) = 1%nat <->
        rising w = true /\ float_to_int current >= target) /\
     (fires (trace_of (Heat.loop w)) = 0%nat <->
        ~ (rising w = true /\ float_to_int current >= target))) /\
  (below_band w = true ->
     Heat.TemperatureTarget (vars (state_of (Heat.loop w))) = 0 /\
     fires (trace_of (Heat.loop w)) = 0%nat) /\
  (fires (trace_of (Heat.loop w)) = 1%nat ->
     vars (state_of (Heat.loop w)) = Heat.mkGlobals (resample w) (resample w) 0) /\
  (forall n : nat,
     let T := float_to_int current + 1 in
     target = 0 -> float_to_int current < 32767 -> T <> 0 ->
     (forall k, (k <= S n)%nat ->
        read_ok (after k w) = true /\ rising (after k w) = true) ->
     (forall k, (1 <= k <= n)%nat -> float_to_int (sample (after k w)) < T) ->
     float_to_int (sample (after (S n) w)) >= T ->
     fires (trace_of (Heat.polls (S n) w)) = 0%nat /\
     fires (trace_of (Heat.polls (S (S n)) w)) = 1%nat /\
     vars (after (S (S n)) w)
     = Heat.mkGlobals (resample (after (S n) w)) (resample (after (S n) w)) 0).
Proof.
  intros current target.
  assert (Harm : rising w = true -> target = 0 -> float_to_int current < 32767 ->
                 classify w = Held /\ armed_target w = float_to_int current + 1).
  { intros Hr Ht Hlt.
    assert (Ha := armed_target_fresh w Ht Hlt). split; [|exact Ha].
    apply classify_held; [exact Hok | exact Hr |].
    unfold target_reached. rewrite Ha. fold current.
    destruct (Z.geb_spec (float_to_int current) (float_to_int current + 1));
      [lia | reflexivity]. }
  split; [|split; [|split; [|split]]].
  - intros Hr Ht Hlt. destruct (Harm Hr Ht Hlt) as [Hc Ha].
    rewrite heat_loop_vars, heat_loop_fires. unfold poll_vars. rewrite Hc.
    split; [exact Ha | reflexivity].
  - intros Ht.
    assert (Hf : classify w = Fired <->
                 rising w = true /\ float_to_int current >= target).
    { rewrite classify_fired. unfold target_reached.
      rewrite (armed_target_of w target Ht eq_refl). fold current.
      rewrite Z.geb_le. split.
      - intros (_ & Hr & Hge). split; [exact Hr | lia].
      - intros (Hr & Hge). repeat split; [exact Hok | exact Hr | lia]. }
    rewrite heat_loop_fires, <- Hf.
    destruct (classify w); split; split; congruence.
  - intros Hb. assert (Hc := classify_relaxed w Hok Hb).
    rewrite heat_loop_vars, heat_loop_fires. unfold poll_vars. rewrite Hc.
    split; reflexivity.
  - rewrite heat_loop_fires, heat_loop_vars. unfold poll_vars.
    destruct (classify w); try discriminate. reflexivity.
  - intros n T Ht Hlt HT Hrise Hlow Hreach.
    destruct (Hrise 0%nat ltac:(lia)) as [_ Hr]. rewrite after_0 in Hr.
    destruct (Harm Hr Ht Hlt) as [Hc Ha].
    destruct (heat_rising_run n (state_of (Heat.loop w)) T HT) as (H0 & H1 & Hv).
    + rewrite heat_loop_vars. unfold poll_vars. rewrite Hc. exact Ha.
    + intros k Hk. rewrite <- after_S. apply Hrise. lia.
    + intros k Hk. rewrite <- after_S. apply Hlow. lia.
    + rewrite <- after_S. exact Hreach.
    + rewrite (polls_S_trace (S n)), (polls_S_trace n), !fires_app,
        heat_loop_fires, Hc, H0, H1.
      split; [reflexivity|]. split; [reflexivity|].
      rewrite (after_S (S n)), Hv, <- after_S. reflexivity.
Qed.

(* ===================================================================== *)
(** * The properties at concrete boards *)
(* ===================================================================== *)

(** The animation of a strip of two pixels: three frames, the first and
    the last with an index outside the strip. *)
Example chaser_of_two :
  chaser A0Strip 2
  = [StripSetPixelColor A0Strip 0 red; StripSetPixelColor A0Strip (-1) off;
     StripShow A0Strip; Delay 400;
     StripSetPixelColor A0Strip 1 red; StripSetPixelColor A0Strip 0 off;
     StripShow A0Strip; Delay 400;
     StripSetPixelColor A0Strip 2 red; StripSetPixelColor A0Strip 1 off;
     StripShow A0Strip; Delay 400;
     StripClear A0Strip; StripShow A0Strip].
Proof. reflexivity. Qed.

(** The pixels of the first watering strip while its animation runs:
    after the frame i = 3 pixel 3 alone is lit. *)
Example strip_during_animation :
  pixels (get_strip A0Strip
            (hw (state_of (for_each (range_up 0 3 1) (animateStrip_step A0Strip)
                             Demo.watering))))
  = [0; 0; 0; red; 0; 0; 0; 0].
Proof. vm_compute. reflexivity. Qed.

(** Without a touch the watering sketch does nothing. *)
Example watering_untouched :
  trace_of (Watering.loop (mkWorld (Demo.board 8 10 Demo.silent) tt)) = [].
Proof. reflexivity. Qed.

(** The values drawn at the touched board are 23, 30, 37, ... and the
    settled one is 30. *)
Example watering_draws :
  map (fun k => Z.of_N (raw_draw Demo.watering k) mod 21 + 20) (seq 0 11)
  = [23; 30; 37; 23; 30; 37; 23; 30; 37; 23; 30].
Proof. vm_compute. reflexivity. Qed.

(** The traffic sketch at previous = 500: 450 fires, 451 does not. *)
Example traffic_450_fires :
  fires (trace_of (Traffic.loop (Demo.traffic 500 450))) = 1%nat.
Proof. vm_compute. reflexivity. Qed.

Example traffic_451_idle :
  trace_of (Traffic.loop (Demo.traffic 500 451)) = [Delay 1000].
Proof. vm_compute. reflexivity. Qed.

(** The heat sketch on the samples 20.5, 21.0, 22.0: seeded, armed to 22,
    fired; afterwards previous is the 22.5 sampled again. *)
Example heat_heating_run :
  map (fun k => classify (after k (Demo.heat Demo.heating))) (seq 0 3)
  = [Relaxed; Held; Fired] /\
  Heat.TemperatureTarget (vars (after 2 (Demo.heat Demo.heating))) = 22 /\
  vars (after 3 (Demo.heat Demo.heating))
  = Heat.mkGlobals (f32 45 (-1)) (f32 45 (-1)) 0.
Proof. vm_compute. repeat split. Qed.

(** The first reading after startup, 20.5: it is 0.2 above the stored
    previous 0, but the sketch first replaces that 0 by the reading and
    compares the reading with itself: no target is armed. *)
Example heat_boot_reading_arms_nothing :
  let w := Demo.heat Demo.heating in
  fleb (fadd (Heat.TemperaturePrevious (vars w)) f_0_2) (sample w) = true /\
  rising w = false /\
  classify w = Relaxed /\
  Heat.TemperatureTarget (vars (after 1 w)) = 0.
Proof. vm_compute. repeat split. Qed.

(** The samples 0.0 and 1.0 met with a stored previous of -0.5: each is
    0.2 above its predecessor, the first arms the target 1 and the
    second has the cast 1; but the 0.0 stored as previous is replaced by
    the second sample, which is compared with itself: the second poll
    goes to [resetAll] and nothing fires. *)
Example heat_zero_predecessor_is_not_compared :
  let w := Demo.chilled in
  fleb (fadd (Heat.TemperaturePrevious (vars w)) f_0_2) (sample w) = true /\
  fleb (fadd (sample w) f_0_2) (sample (after 1 w)) = true /\
  map (fun k => classify (after k w)) (seq 0 2) = [Held; Relaxed] /\
  Heat.TemperatureTarget (vars (after 1 w)) = 1 /\
  float_to_int (sample (after 1 w)) = 1 /\
  rising (after 1 w) = false /\
  fires (trace_of (Heat.polls 2 w)) = 0%nat /\
  Heat.TemperatureTarget (vars (after 2 w)) = 0.
Proof. vm_compute. repeat split. Qed.

(** The cast on 20.875 and on -20.875: truncation toward zero. *)
Example float_to_int_truncates :
  float_to_int (f32 167 (-3)) = 20 /\ float_to_int (f32 (-167) (-3)) = -20 /\
  float_floor (f32 167 (-3)) = 20 /\ float_floor (f32 (-167) (-3)) = -21.
Proof. vm_compute. repeat split. Qed.

(** C1 at a touched board. *)
Lemma watering_loop_runs_fixed_sequence_witness :
  touch (sensors (hw Demo.watering)) (n_touch (sensors (hw Demo.watering))) = HIGH /\
  trace_of (Watering.loop Demo.watering)
  = watering_events Z.add (fun k => Z.of_N (raw_draw Demo.watering k) mod 21 + 20).
Proof.
  split; [reflexivity|].
  exact (proj1 (watering_loop_runs_fixed_sequence Demo.watering eq_refl)).
Defined.

(** C3 on the first strip of the watering board. *)
Lemma animateStrip_leaves_strip_off_witness :
  1 <= 8 /\
  numPixels (get_strip A0Strip (hw (state_of (animateStrip A0Strip 8 Demo.watering))))
  = numPixels (get_strip A0Strip (hw Demo.watering)).
Proof.
  assert (H : 1 <= 8) by lia.
  split; [exact H|].
  exact (proj1 (animateStrip_leaves_strip_off Demo.watering A0Strip 8 H)).
Defined.

(** C4 on the first strip of the watering board. *)
Lemma animateStrip_boundary_writes_are_noops_witness :
  0 <= 8 <= 32767 /\
  numPixels (get_strip A0Strip (hw Demo.watering)) = 8 /\
  trace_of (animateStrip A0Strip 8 Demo.watering) = chaser A0Strip 8.
Proof.
  assert (H : 0 <= 8 <= 32767) by lia.
  split; [exact H|]. split; [reflexivity|].
  exact (proj1 (animateStrip_boundary_writes_are_noops
                  Demo.watering A0Strip 8 H eq_refl)).
Defined.

(** C7 with previous = 500 and a sample of 450. *)
Lemma traffic_fires_iff_drop_of_50_witness :
  -32718 <= Traffic.LightPrevious (vars (Demo.traffic 500 450)) <= 32767 /\
  fires (trace_of (Traffic.loop (Demo.traffic 500 450))) = 1%nat.
Proof.
  assert (H : -32718 <= Traffic.LightPrevious (vars (Demo.traffic 500 450)) <= 32767)
    by (cbn; lia).
  split; [exact H|].
  exact (proj1 (proj2 (proj2 (proj2 (proj2
           (traffic_fires_iff_drop_of_50 (Demo.traffic 500 450) H)))))
           eq_refl eq_refl).
Defined.

(** C9 on a board whose first sample is 450. *)
Lemma traffic_no_fire_on_first_poll_witness :
  0 <= light (sensors (Demo.board 11 11 (Demo.lit 450)))
         (n_light (sensors (Demo.board 11 11 (Demo.lit 450)))) <= 1023 /\
  Traffic.LightPrevious
    (vars (state_of (Traffic.setup
                       (mkWorld (Demo.board 11 11 (Demo.lit 450)) Traffic.globals0))))
  = 0.
Proof.
  assert (H : 0 <= light (sensors (Demo.board 11 11 (Demo.lit 450)))
                    (n_light (sensors (Demo.board 11 11 (Demo.lit 450)))) <= 1023)
    by (cbn; lia).
  split; [exact H|].
  exact (proj1 (traffic_no_fire_on_first_poll (Demo.board 11 11 (Demo.lit 450)) H)).
Defined.

(** C8 with a sensor that does not answer. *)
Lemma heat_failed_read_skips_poll_witness :
  status (next_reading (Demo.heat Demo.silent)) <> 0 /\
  trace_of (Heat.loop (Demo.heat Demo.silent)) = [Delay 1500].
Proof.
  assert (H : status (next_reading (Demo.heat Demo.silent)) <> 0)
    by (cbn; discriminate).
  split; [exact H|].
  exact (proj1 (heat_failed_read_skips_poll (Demo.heat Demo.silent) H)).
Defined.

(** C6 along three polls at a steady 20.5 degrees. *)
Lemma heat_below_band_resets_without_alert_witness :
  (forall k, (k < 3)%nat ->
     read_ok (after k (Demo.heat Demo.steady)) = true /\
     below_band (after k (Demo.heat Demo.steady)) = true) /\
  fires (trace_of (Heat.polls 3 (Demo.heat Demo.steady))) = 0%nat.
Proof.
  assert (H : forall k, (k < 3)%nat ->
     read_ok (after k (Demo.heat Demo.steady)) = true /\
     below_band (after k (Demo.heat Demo.steady)) = true).
  { intros k Hk. destruct k as [|[|[|k]]];
      [split; vm_compute; reflexivity .. | lia]. }
  split; [exact H|].
  exact (proj2 (proj2 (heat_below_band_resets_without_alert
                         (Demo.heat Demo.steady) 3 H))).
Defined.

(** C2 along the samples 21.0 and 22.0 after a first sample of 20.5: the
    first arms the target 22, the second reaches it and fires. *)
Lemma heat_alert_fires_when_rising_reaches_target_witness :
  let w := after 1 (Demo.heat Demo.heating) in
  read_ok w = true /\
  fires (trace_of (Heat.polls 1 w)) = 0%nat /\
  fires (trace_of (Heat.polls 2 w)) = 1%nat /\
  vars (after 2 w) = Heat.mkGlobals (resample (after 1 w)) (resample (after 1 w)) 0.
Proof.
  intros w.
  assert (Hok : read_ok w = true) by (vm_compute; reflexivity).
  split; [exact Hok|].
  refine (proj2 (proj2 (proj2 (proj2
            (heat_alert_fires_when_rising_reaches_target w Hok)))) 0%nat _ _ _ _ _ _).
  - vm_compute; reflexivity.
  - vm_compute; reflexivity.
  - vm_compute; discriminate.
  - intros k Hk. destruct k as [|[|k]];
      [split; vm_compute; reflexivity .. | lia].
  - intros k Hk. lia.
  - vm_compute; discriminate.
Defined.

(** C2 as the specification states it fails on the samples 20.5, 20.875,
    21.0 read after startup.  They increase; the second is above
    previous + 0.2 and arms the target 21; the third has floor 21, which
    reaches the armed target, but lies below previous + 0.2: the poll
    goes to [resetAll], nothing fires and the target is unarmed. *)
Lemma heat_target_reached_within_band_does_not_fire :
  let boot := Demo.heat Demo.creeping in
  let w := after 2 boot in
  (fltb (sample boot) (sample (after 1 boot)) = true /\
   fltb (sample (after 1 boot)) (sample w) = true) /\
  rising (after 1 boot) = true /\
  read_ok w = true /\
  Heat.TemperatureTarget (vars w) = 21 /\
  float_to_int (sample w) = 21 /\
  float_floor (sample w) = 21 /\
  fires (trace_of (Heat.loop w)) = 0%nat /\
  ~ (fires (trace_of (Heat.loop w)) = 1%nat <->
     float_to_int (sample w) >= Heat.TemperatureTarget (vars w)) /\
  fires (trace_of (Heat.polls 3 boot)) = 0%nat /\
  Heat.TemperatureTarget (vars (after 3 boot)) = 0.
Proof.
  intros boot w.
  assert (Ht : Heat.TemperatureTarget (vars w) = 21) by (vm_compute; reflexivity).
  assert (Hs : float_to_int (sample w) = 21) by (vm_compute; reflexivity).
  assert (Hf : fires (trace_of (Heat.loop w)) = 0%nat) by (vm_compute; reflexivity).
  split; [split; vm_compute; reflexivity|].
  split; [vm_compute; reflexivity|].
  split; [vm_compute; reflexivity|].
  split; [exact Ht|]. split; [exact Hs|].
  split; [vm_compute; reflexivity|].
  split; [exact Hf|].
  split; [|split; vm_compute; reflexivity].
  rewrite Hf, Ht, Hs. intros [_ H]. specialize (H ltac:(lia)). discriminate H.
Qed.

(* ===================================================================== *)
(** * Further properties of the strip animator *)
(* ===================================================================== *)

Lemma duration_app t1 t2 : duration (t1 ++ t2) = duration t1 + duration t2.
Proof.
  induction t1 as [|e t1 IH]; [reflexivity|].
  cbn [app duration fold_right]. fold (duration (t1 ++ t2)). fold (duration t1).
  rewrite IH. destruct e; lia.
Qed.

Lemma duration_chaser_frames Strip l :
  duration (flat_map (chaser_frame Strip) l) = 400 * Z.of_nat (length l).
Proof.
  induction l as [|i l IH]; [reflexivity|].
  cbn [flat_map]. rewrite duration_app, IH.
  change (duration (chaser_frame Strip i)) with 400. cbn [length]. lia.
Qed.

Section StripMore.
Context {G : Type}.
Implicit Types w : World G.

Lemma for_each_app (l1 l2 : list Z) (body : Z -> M G unit) w :
  state_of (for_each (l1 ++ l2) body w)
  = state_of (for_each l2 body (state_of (for_each l1 body w))).
Proof.
  revert w. induction l1 as [|i l1 IH]; intros w; [reflexivity|].
  cbn [app for_each]. rewrite !state_bind. apply IH.
Qed.

Lemma animateStrip_step_strip Strip i w :
  get_strip Strip (hw (state_of (animateStrip_step Strip i w)))
  = Driver.show (Driver.setPixelColor (i - 1) off
      (Driver.setPixelColor i red (get_strip Strip (hw w)))).
Proof.
  unfold animateStrip_step, Strip_setPixelColor, Strip_show.
  run. rewrite !get_on_strip. reflexivity.
Qed.

End StripMore.

Lemma setPixelColor_pixels n c s :
  0 <= n < 65536 ->
  pixels (Driver.setPixelColor n c s) = <[Z.to_nat n := c]> (pixels s).
Proof.
  intros Hn. unfold Driver.setPixelColor. rewrite uint16_small by lia.
  destruct (Z.ltb_spec n (numPixels s)) as [H|H]; [reflexivity|].
  unfold numPixels in H. symmetry. apply list_insert_ge. lia.
Qed.

Lemma chaser_pixels_first (p0 : list Z) :
  <[0%nat := red]> p0 = chaser_pixels p0 0.
Proof.
  apply list_eq. intros j. unfold chaser_pixels.
  rewrite list_lookup_insert, list_lookup_imap.
  destruct (decide (0%nat = j /\ (0 < length p0)%nat)) as [[<- H]|H].
  - destruct p0; [cbn in H; lia | reflexivity].
  - destruct j as [|j].
    + destruct p0; [reflexivity | cbn in H; lia].
    + destruct (p0 !! S j); reflexivity.
Qed.

Lemma chaser_pixels_next (p0 : list Z) (i : nat) :
  <[i := off]> (<[S i := red]> (chaser_pixels p0 i)) = chaser_pixels p0 (S i).
Proof.
  apply list_eq. intros j. unfold chaser_pixels.
  rewrite !list_lookup_insert, !length_insert, !list_lookup_imap, !length_imap.
  destruct (p0 !! j) as [x|] eqn:Hj; cbn [fmap option_fmap option_map].
  - apply lookup_lt_Some in Hj.
    destruct (decide (i = j /\ (i < length p0)%nat)) as [[-> _]|H1].
    + destruct (Nat.ltb_spec j (S j)); [reflexivity | lia].
    + destruct (decide (S i = j /\ (S i < length p0)%nat)) as [[<- _]|H2].
      * rewrite Nat.ltb_irrefl, Nat.eqb_refl. reflexivity.
      * destruct (Nat.ltb_spec j i), (Nat.ltb_spec j (S i)),
          (Nat.eqb_spec j i), (Nat.eqb_spec j (S i)); try reflexivity; lia.
  - apply lookup_ge_None in Hj.
    destruct (decide (i = j /\ (i < length p0)%nat)) as [[-> ?]|H1]; [lia|].
    destruct (decide (S i = j /\ (S i < length p0)%nat)) as [[<- ?]|H2]; [lia|].
    reflexivity.
Qed.

Lemma frame_first (s : strip) :
  numPixels s <= 65535 ->
  pixels (Driver.show (Driver.setPixelColor (0 - 1) off (Driver.setPixelColor 0 red s)))
  = chaser_pixels (pixels s) 0.
Proof.
  intros Hlen. cbn [Driver.show pixels].
  rewrite (setPixelColor_out_of_range (0 - 1)).
  - rewrite setPixelColor_pixels by lia. apply chaser_pixels_first.
  - unfold numPixels in *. rewrite setPixelColor_length.
    change (uint16 (0 - 1)) with 65535. lia.
Qed.

Lemma frame_next (s : strip) (p0 : list Z) (i : nat) :
  Z.of_nat (S i) <= 65535 ->
  pixels s = chaser_pixels p0 i ->
  pixels (Driver.show (Driver.setPixelColor (Z.of_nat (S i) - 1) off
                         (Driver.setPixelColor (Z.of_nat (S i)) red s)))
  = chaser_pixels p0 (S i).
Proof.
  intros Hi Hs. cbn [Driver.show pixels].
  rewrite !setPixelColor_pixels by lia. rewrite Hs.
  replace (Z.to_nat (Z.of_nat (S i) - 1)) with i by lia.
  rewrite Nat2Z.id. apply chaser_pixels_next.
Qed.

Lemma range_up_snoc (i : nat) :
  range_up 0 (Z.of_nat (S i)) 1 = range_up 0 (Z.of_nat i) 1 ++ [Z.of_nat (S i)].
Proof.
  rewrite !range_up_unit by lia.
  replace (Z.to_nat (Z.of_nat (S i) - 0 + 1)) with (S (Z.to_nat (Z.of_nat i - 0 + 1))) by lia.
  rewrite seq_S, map_app. cbn [map]. f_equal. f_equal. lia.
Qed.

Section Chaser.
Context {G : Type}.
Implicit Types w : World G.

Lemma state_ret {A} (a : A) w : state_of (mret (M:=M G) a w) = w.
Proof. reflexivity. Qed.

Lemma animateStrip_frames_pixels Strip (i : nat) w :
  numPixels (get_strip Strip (hw w)) <= 65535 ->
  Z.of_nat i <= 65535 ->
  let s' := get_strip Strip
              (hw (state_of (for_each (range_up 0 (Z.of_nat i) 1)
                               (animateStrip_step Strip) w))) in
  pixels s' = chaser_pixels (pixels (get_strip Strip (hw w))) i /\
  shown s' = pixels s'.
Proof.
  intros Hlen. induction i as [|i IH]; intros Hi; cbn zeta.
  - change (range_up 0 (Z.of_nat 0) 1) with [0]. cbn [for_each].
    rewrite state_bind, state_ret, animateStrip_step_strip. split; [|reflexivity].
    apply frame_first, Hlen.
  - rewrite range_up_snoc, for_each_app. cbn [for_each].
    rewrite state_bind, state_ret, animateStrip_step_strip. split; [|reflexivity].
    apply frame_next; [lia|]. apply IH. lia.
Qed.

End Chaser.

Lemma chaser_pixels_lookup (p0 : list Z) (i j : nat) (x : Z) :
  p0 !! j = Some x ->
  chaser_pixels p0 i !! j
  = Some (if (j <? i)%nat then off else if (j =? i)%nat then red else x).
Proof.
  intros H. unfold chaser_pixels. rewrite list_lookup_imap, H. reflexivity.
Qed.

Lemma chaser_pixels_length (p0 : list Z) (i : nat) :
  length (chaser_pixels p0 i) = length p0.
Proof. apply length_imap. Qed.

Lemma chaser_pixels_all (p0 : list Z) :
  chaser_pixels p0 (length p0) = replicate (length p0) 0.
Proof.
  apply list_eq. intros j. unfold chaser_pixels. rewrite list_lookup_imap.
  destruct (p0 !! j) as [x|] eqn:Hj; cbn [fmap option_fmap option_map].
  - apply lookup_lt_Some in Hj. rewrite lookup_replicate_2 by exact Hj.
    destruct (Nat.ltb_spec j (length p0)); [reflexivity | lia].
  - apply lookup_ge_None in Hj. symmetry. apply lookup_replicate_None. exact Hj.
Qed.

Lemma set_set_strip s v v' b : set_strip s v (set_strip s v' b) = set_strip s v b.
Proof. destruct s; reflexivity. Qed.

Lemma show_clear_dark (s : strip) :
  pixels s = replicate (length (pixels s)) 0 -> shown s = pixels s ->
  Driver.show (Driver.clear s) = s.
Proof.
  destruct s as [p sh br bg]. cbn [pixels shown]. intros Hp Hs. subst sh.
  unfold Driver.show, Driver.clear. cbn [pixels shown brightness begun].
  rewrite <- Hp. reflexivity.
Qed.

(** X1.  While [animateStrip] runs on a strip (of at most 65535 pixels,
    the loop index being an [int]), once the frames 0..i have been drawn
    the strip has the length it had, the frame committed to the LEDs is
    the buffer, and in it the pixels before i are off, pixel i is red
    and the pixels after i are as they were before the animation. *)
Theorem animateStrip_frame_lights_one_pixel
  {G : Type} (w : World G) (Strip : strip_id) (i : nat)
  (Hlen : numPixels (get_strip Strip (hw w)) <= 65535)
  (Hi : Z.of_nat i <= 32767) :
  let p0 := pixels (get_strip Strip (hw w)) in
  let s' := get_strip Strip
              (hw (state_of (for_each (range_up 0 (Z.of_nat i) 1)
                               (animateStrip_step Strip) w))) in
  length (pixels s') = length p0 /\
  shown s' = pixels s' /\
  forall (j : nat) (x : Z), p0 !! j = Some x ->
    pixels s' !! j
    = Some (if (j <? i)%nat then off else if (j =? i)%nat then red else x).
Proof.
  cbn zeta.
  destruct (animateStrip_frames_pixels Strip i w Hlen ltac:(lia)) as [Hp Hs].
  cbn zeta in Hp, Hs. rewrite Hs, Hp, chaser_pixels_length.
  split; [reflexivity|]. split; [reflexivity|].
  intros j x Hj. apply chaser_pixels_lookup, Hj.
Qed.

(** X2.  On a strip of exactly L pixels the loop of
    [animateStrip(strip, L)] already leaves the buffer and the committed
    frame all off: its last frame only turns the last pixel off, and the
    trailing clear and show change nothing in the state. *)
Theorem animateStrip_last_frame_is_dark
  {G : Type} (w : World G) (Strip : strip_id) (L : Z)
  (HL : 0 <= L <= 32767)
  (Hlen : numPixels (get_strip Strip (hw w)) = L) :
  let loop_end := state_of (for_each (range_up 0 L 1) (animateStrip_step Strip) w) in
  pixels (get_strip Strip (hw loop_end)) = replicate (Z.to_nat L) off /\
  shown (get_strip Strip (hw loop_end)) = replicate (Z.to_nat L) off /\
  state_of (animateStrip Strip L w) = loop_end.
Proof.
  cbn zeta.
  assert (HLn : L = Z.of_nat (length (pixels (get_strip Strip (hw w)))))
    by (unfold numPixels in Hlen; lia).
  destruct (animateStrip_frames_pixels Strip
              (length (pixels (get_strip Strip (hw w)))) w) as [Hp Hs];
    [lia | lia |]. cbn zeta in Hp, Hs.
  rewrite <- HLn in Hp, Hs. rewrite chaser_pixels_all in Hp.
  replace (Z.to_nat L) with (length (pixels (get_strip Strip (hw w)))) by lia.
  rewrite Hs, Hp. split; [reflexivity|]. split; [reflexivity|].
  unfold animateStrip, Strip_clear, Strip_show. rewrite !state_bind, !state_write.
  cbn [hw vars].
  set (w1 := state_of (for_each (range_up 0 L 1) (animateStrip_step Strip) w)) in *.
  unfold on_strip at 1. rewrite get_on_strip. unfold on_strip.
  rewrite set_set_strip, show_clear_dark, set_get_strip.
  - destruct w1; reflexivity.
  - rewrite Hp, length_replicate. reflexivity.
  - exact Hs.
Qed.

Section FrameOfAnimate.
Context {G : Type}.
Implicit Types w : World G.

Lemma rest_of_write Strip f e w :
  rest_of Strip (state_of (write (on_strip Strip f) e w)) = rest_of Strip w.
Proof.
  unfold rest_of. rewrite state_write. cbn [hw vars]. unfold on_strip.
  rewrite set_set_strip. reflexivity.
Qed.

Lemma rest_of_step Strip i w :
  rest_of Strip (state_of (animateStrip_step Strip i w)) = rest_of Strip w.
Proof.
  unfold animateStrip_step, Strip_setPixelColor, Strip_show.
  rewrite !state_bind. change (state_of (delay 400 ?x)) with x.
  rewrite !rest_of_write. reflexivity.
Qed.

End FrameOfAnimate.

(** X3.  [animateStrip] changes nothing but the strip it is given: the
    globals are as before, and so is the board once that strip is put
    back, in particular the other strip. *)
Theorem animateStrip_touches_only_its_strip
  {G : Type} (w : World G) (Strip : strip_id) (L : Z) :
  let w' := state_of (animateStrip Strip L w) in
  vars w' = vars w /\
  set_strip Strip (get_strip Strip (hw w)) (hw w') = hw w /\
  forall other, other <> Strip -> get_strip other (hw w') = get_strip other (hw w).
Proof.
  cbn zeta.
  assert (H : rest_of Strip (state_of (animateStrip Strip L w)) = rest_of Strip w).
  { unfold animateStrip, Strip_clear, Strip_show. rewrite !state_bind.
    rewrite !rest_of_write.
    apply (for_each_invariant (fun w' => rest_of Strip w' = rest_of Strip w)).
    - intros i w' Hw'. rewrite rest_of_step. exact Hw'.
    - reflexivity. }
  unfold rest_of in H. injection H as Hhw Hvars.
  split; [exact Hvars|].
  assert (Hb : set_strip Strip (get_strip Strip (hw w))
                 (hw (state_of (animateStrip Strip L w))) = hw w).
  { rewrite <- (set_set_strip Strip _ (mkStrip [] [] 0 false)), Hhw.
    rewrite set_set_strip. apply set_get_strip. }
  split; [exact Hb|].
  intros other Hne. rewrite <- Hb at 1.
  destruct other, Strip; try contradiction; reflexivity.
Qed.

(** X4.  [animateStrip(strip, L)] blocks for 400 ms per frame and draws
    L + 1 frames: 400 * (L + 1) ms in all, for every L with
    0 <= L < 32767, the lengths at which the loop index does not
    overflow. *)
Theorem animateStrip_blocks_for_L_plus_1_frames
  {G : Type} (w : World G) (Strip : strip_id) (L : Z) (HL : 0 <= L < 32767) :
  duration (trace_of (animateStrip Strip L w)) = 400 * (L + 1).
Proof.
  rewrite animateStrip_trace. unfold chaser.
  rewrite duration_app, duration_chaser_frames, range_up_length by lia.
  change (duration [StripClear Strip; StripShow Strip]) with 0. lia.
Qed.


(* ===================================================================== *)
(** * Further properties of the watering sketch and of resetAll *)
(* ===================================================================== *)

Lemma watering_sequence_sensors (w : World Watering.Globals) :
  sensors (hw (state_of (Watering.sequence w)))
  = mkInputs (touch (sensors (hw w))) (light (sensors (hw w)))
             (dht (sensors (hw w))) (rnd (sensors (hw w)))
             (n_touch (sensors (hw w))) (n_light (sensors (hw w)))
             (n_dht (sensors (hw w))) (11 + n_rnd (sensors (hw w))).
Proof. destruct w as [[l p d5 d7 a0 a1 a3 [t li dh r nt nl nd nr]] g]. reflexivity. Qed.

Lemma watering_loop_sensors (w : World Watering.Globals) :
  touch (sensors (hw (state_of (Watering.loop w)))) = touch (sensors (hw w)) /\
  rnd (sensors (hw (state_of (Watering.loop w)))) = rnd (sensors (hw w)) /\
  n_touch (sensors (hw (state_of (Watering.loop w)))) = S (n_touch (sensors (hw w))) /\
  n_rnd (sensors (hw (state_of (Watering.loop w))))
  = ((if next_touch w then 11 else 0) + n_rnd (sensors (hw w)))%nat.
Proof.
  unfold Watering.loop. rewrite state_bind.
  change (value_of (digitalRead_A3 w)) with (next_touch w).
  destruct (next_touch w); cbn [Bool.eqb HIGH].
  - rewrite watering_sequence_sensors. destruct w as [b g]. repeat split.
  - destruct w as [b g]. repeat split.
Qed.

Lemma watering_sequence_fires (w : World Watering.Globals) :
  fires (trace_of (Watering.sequence w)) = 1%nat.
Proof. rewrite watering_sequence_trace_raw. reflexivity. Qed.

Lemma watering_loop_fires (w : World Watering.Globals) :
  fires (trace_of (Watering.loop w)) = if next_touch w then 1%nat else 0%nat.
Proof.
  unfold Watering.loop. rewrite trace_bind.
  change (value_of (digitalRead_A3 w)) with (next_touch w).
  destruct (next_touch w); cbn [Bool.eqb HIGH].
  - rewrite fires_app, watering_sequence_fires. reflexivity.
  - reflexivity.
Qed.

Lemma upcoming_touch_S {G} n (w w1 : World G) :
  touch (sensors (hw w1)) = touch (sensors (hw w)) ->
  n_touch (sensors (hw w1)) = S (n_touch (sensors (hw w))) ->
  upcoming_touch (S n) w = next_touch w :: upcoming_touch n w1.
Proof.
  intros Hl Hn. unfold upcoming_touch, next_touch. cbn [seq map]. f_equal.
  rewrite <- seq_shift, map_map. apply map_ext. intros k.
  rewrite Hl, Hn. f_equal. lia.
Qed.

(** X6.  Over n calls of the watering [loop] the sequence runs once for
    every read of the touch sensor that returns HIGH, also on
    consecutive reads: n reads are made, and eleven pseudo-random draws
    are consumed per run. *)
Theorem watering_runs_once_per_high_read
  (w : World Watering.Globals) (n : nat) :
  let w' := state_of (Watering.polls n w) in
  fires (trace_of (Watering.polls n w)) = triggers n w /\
  n_touch (sensors (hw w')) = (n + n_touch (sensors (hw w)))%nat /\
  n_rnd (sensors (hw w')) = (11 * triggers n w + n_rnd (sensors (hw w)))%nat.
Proof.
  cbn zeta. revert w. induction n as [|n IH]; intros w.
  - repeat split.
  - destruct (watering_loop_sensors w) as (Ht & Hr & Hnt & Hnr).
    destruct (IH (state_of (Watering.loop w))) as (IHf & IHt & IHr).
    cbn [Watering.polls]. rewrite trace_bind, state_bind, fires_app.
    change (value_of (Watering.loop w)) with tt.
    rewrite IHf, IHt, IHr, Hnt, Hnr, watering_loop_fires.
    unfold triggers.
    rewrite (upcoming_touch_S n w (state_of (Watering.loop w)) Ht Hnt).
    cbn [List.filter]. destruct (next_touch w); cbn [Bool.eqb HIGH length];
      repeat split; lia.
Qed.

Lemma watering_loop_trace (w : World Watering.Globals) :
  next_touch w = HIGH ->
  trace_of (Watering.loop w)
  = watering_events Z.add (fun k => Z.of_N (raw_draw w k) mod 21 + 20).
Proof.
  intros H. rewrite watering_loop_trace_high by exact H.
  rewrite watering_sequence_trace_raw.
  apply watering_events_ext.
  - intros k _. rewrite random_level_value. reflexivity.
  - intros k Hk. apply int16_small.
    pose proof (Z.mod_pos_bound (Z.of_N (raw_draw w 10)) 21). lia.
Qed.

Lemma Forall_flat_map_in {A B} (P : B -> Prop) (f : A -> list B) (l : list A) :
  (forall a, In a l -> Forall P (f a)) -> Forall P (flat_map f l).
Proof.
  intros H. apply List.Forall_forall. intros b Hb.
  apply in_flat_map in Hb. destruct Hb as (a & Ha & Hb).
  specialize (H a Ha). rewrite List.Forall_forall in H. apply H, Hb.
Qed.

Lemma chaser_renders_nothing lo hi Strip L :
  Forall (renders_within lo hi) (chaser Strip L).
Proof.
  unfold chaser. apply Forall_app. split.
  - apply Forall_flat_map_in. intros i _. repeat constructor.
  - repeat constructor.
Qed.

Lemma slot_events_rendered (draw : nat -> Z) :
  (forall k, 20 <= draw k <= 40) -> Forall (renders_within 20 98) (slot_events draw).
Proof.
  intros Hd. unfold slot_events. apply Forall_flat_map_in. intros k _.
  pose proof (Hd k). repeat constructor; cbn [renders_within]; lia.
Qed.

Lemma fade_events_rendered (V : Z) :
  20 <= V <= 40 -> Forall (renders_within 20 98) (fade_events V).
Proof.
  intros HV. unfold fade_events. apply Forall_flat_map_in. intros i _.
  repeat constructor; cbn [renders_within]; lia.
Qed.

Lemma ramp_events_rendered (V : Z) :
  20 <= V <= 40 -> Forall (renders_within 20 98) (ramp_events Z.add V).
Proof.
  intros HV. unfold ramp_events. apply Forall_flat_map_in. intros k Hk.
  apply in_seq in Hk. unfold ramp_frame. cbn zeta.
  rewrite !Forall_app. repeat split.
  - repeat constructor; cbn [renders_within]; lia.
  - destruct (_ && _); repeat constructor.
  - destruct (_ && _); repeat constructor.
  - repeat constructor.
Qed.

Lemma watering_events_rendered (draw : nat -> Z) :
  (forall k, 20 <= draw k <= 40) ->
  Forall (renders_within 20 98) (watering_events Z.add draw).
Proof.
  intros Hd. pose proof (Hd 10%nat) as HV.
  unfold watering_events. cbn zeta. rewrite !Forall_app.
  repeat split;
    first [ apply chaser_renders_nothing
          | apply slot_events_rendered, Hd
          | apply fade_events_rendered, HV
          | apply ramp_events_rendered, HV
          | repeat constructor; cbn [renders_within]; lia ].
Qed.

Lemma watering_events_rendered_D5 (draw : nat -> Z) :
  rendered D5Digit (watering_events Z.add draw)
  = map draw (seq 0 11) ++ ramp_values (draw 10%nat).
Proof. reflexivity. Qed.

Lemma watering_events_rendered_D7 (draw : nat -> Z) :
  rendered D7Digit (watering_events Z.add draw)
  = repeat (draw 10%nat) 5 ++ ramp_values (draw 10%nat).
Proof. reflexivity. Qed.

Lemma last_app_nonempty {A} (l1 l2 : list A) (d : A) :
  l2 <> [] -> List.last (l1 ++ l2) d = List.last l2 d.
Proof.
  intros H. induction l1 as [|a l1 IH]; [reflexivity|].
  cbn [app]. rewrite <- IH. destruct (l1 ++ l2) eqn:E; [|reflexivity].
  apply app_eq_nil in E. destruct E as [_ E]. contradiction.
Qed.

(** X7.  In a triggered run of the watering sketch, V being the settled
    value (the eleventh draw of the run): every value rendered on a
    digit display lies in 20..98 and V in 20..40; the first display
    renders the eleven draws in order and then V, V + 2, ..., V + 58; the
    second display renders V five times and then the same thirty values;
    the last value either display renders is V + 58. *)
Theorem watering_renders_between_20_and_98
  (w : World Watering.Globals) (Htrigger : next_touch w = HIGH) :
  let draw := fun k => Z.of_N (raw_draw w k) mod 21 + 20 in
  let V := draw 10%nat in
  let t := trace_of (Watering.loop w) in
  Forall (renders_within 20 98) t /\
  20 <= V <= 40 /\
  rendered D5Digit t = map draw (seq 0 11) ++ ramp_values V /\
  rendered D7Digit t = repeat V 5 ++ ramp_values V /\
  List.last (rendered D5Digit t) 0 = V + 58 /\
  List.last (rendered D7Digit t) 0 = V + 58.
Proof.
  intros draw V t. subst t.
  rewrite watering_loop_trace by exact Htrigger. fold draw.
  assert (Hd : forall k, 20 <= draw k <= 40).
  { intros k. unfold draw.
    pose proof (Z.mod_pos_bound (Z.of_N (raw_draw w k)) 21). lia. }
  rewrite watering_events_rendered_D5, watering_events_rendered_D7. fold V.
  split; [apply watering_events_rendered, Hd|].
  split; [apply Hd|].
  split; [reflexivity|]. split; [reflexivity|].
  split; rewrite last_app_nonempty by discriminate; reflexivity.
Qed.

(** X8.  The time spent in delays by one call of [loop] depends on the
    branch taken only: 28 s for a triggered watering run and none
    otherwise; 25.2 s for a heat poll that fires and 1.5 s for any
    other; 25.61 s for a traffic poll that fires and 1 s otherwise. *)
Theorem triggered_runs_block_for_fixed_time :
  (forall w : World Watering.Globals,
     duration (trace_of (Watering.loop w)) = if next_touch w then 28000 else 0) /\
  (forall w : World Heat.Globals,
     duration (trace_of (Heat.loop w))
     = match classify w with Fired => 25200 | _ => 1500 end) /\
  (forall w : World Traffic.Globals,
     duration (trace_of (Traffic.loop w)) = if drop_detected w then 25610 else 1000).
Proof.
  split; [|split]; intros w.
  - destruct (next_touch w) eqn:Ht.
    + rewrite watering_loop_trace_high by exact Ht.
      rewrite watering_sequence_trace_raw. reflexivity.
    + rewrite watering_loop_trace_low by exact Ht. reflexivity.
  - rewrite heat_loop_trace. unfold poll_events.
    destruct (classify w); reflexivity.
  - rewrite traffic_loop_trace. destruct (drop_detected w); reflexivity.
Qed.

(** X5.  Whatever the text panel showed, after [resetAll] its 32 cells
    hold exactly the two idle lines padded with blanks, with the idle
    backlight; the blink attribute is left as it was. *)
Theorem resetAll_overwrites_panel :
  (forall w : World Watering.Globals,
     let l := I2CDisplay (hw (state_of (Watering.resetAll w))) in
     cells l = list_ascii_of_string "Keine neuen     Daten.          " /\
     backlight l = (150, 100, 0) /\
     blink l = blink (I2CDisplay (hw w))) /\
  (forall w : World Heat.Globals,
     let l := I2CDisplay (hw (state_of (Heat.resetAll w))) in
     cells l = list_ascii_of_string "Temperatur      normal.         " /\
     backlight l = (0, 150, 0) /\
     blink l = blink (I2CDisplay (hw w))) /\
  (forall w : World Traffic.Globals,
     let l := I2CDisplay (hw (state_of (Traffic.resetAll w))) in
     cells l = list_ascii_of_string "50 Parkplaetze  frei.           " /\
     backlight l = (0, 150, 0) /\
     blink l = blink (I2CDisplay (hw w))).
Proof.
  split; [|split]; intros w; cbn zeta.
  - rewrite watering_resetAll_state. repeat split.
  - rewrite heat_resetAll_state. repeat split.
  - rewrite traffic_resetAll_state. repeat split.
Qed.


(* ===================================================================== *)
(** * Further properties of the heat sketch *)
(* ===================================================================== *)

Lemma classify_unarmed_not_fired (w : World Heat.Globals) :
  Heat.TemperatureTarget (vars w) = 0 -> float_to_int (sample w) < 32767 ->
  classify w <> Fired.
Proof.
  intros Ht Hlt Hc. apply classify_fired in Hc. destruct Hc as (_ & _ & Hr).
  unfold target_reached in Hr. rewrite (armed_target_fresh w Ht Hlt) in Hr.
  apply Z.geb_le in Hr. lia.
Qed.

(** X9.  A poll of the heat sketch that starts with no target armed
    never fires, whatever the read returns (the cast of the sample being
    below the largest [int]): an alert takes at least two polls. *)
Theorem heat_unarmed_poll_never_fires
  (w : World Heat.Globals)
  (Htarget : Heat.TemperatureTarget (vars w) = 0)
  (Hint : float_to_int (sample w) < 32767) :
  fires (trace_of (Heat.loop w)) = 0%nat /\
  forallb (fun e => negb (starts_alert e)) (trace_of (Heat.loop w)) = true.
Proof.
  assert (Hc := classify_unarmed_not_fired w Htarget Hint).
  rewrite heat_loop_fires, heat_loop_trace. unfold poll_events.
  destruct (classify w); try contradiction; split; reflexivity.
Qed.

Lemma poll_vars_target_after_fire (w : World Heat.Globals) :
  classify w = Fired -> Heat.TemperatureTarget (poll_vars w) = 0.
Proof. intros H. unfold poll_vars. rewrite H. reflexivity. Qed.

Lemma heat_fires_bound n : forall w,
  (forall k, (k < n)%nat -> float_to_int (sample (after k w)) < 32767) ->
  (2 * fires (trace_of (Heat.polls n w)) <= n + 1)%nat /\
  (Heat.TemperatureTarget (vars w) = 0 ->
   (2 * fires (trace_of (Heat.polls n w)) <= n)%nat).
Proof.
  induction n as [|n IH]; intros w Hint.
  - split; [cbn; lia | intros _; cbn; lia].
  - assert (H0 := Hint 0%nat ltac:(lia)). rewrite after_0 in H0.
    destruct (IH (state_of (Heat.loop w))) as [IHa IHb].
    { intros k Hk. rewrite <- after_S. apply Hint. lia. }
    rewrite polls_S_trace, fires_app, heat_loop_fires.
    destruct (classify w) eqn:Hc.
    all: try (split; [lia | intros _; lia]).
    split.
    + assert (Ht : Heat.TemperatureTarget (vars (state_of (Heat.loop w))) = 0).
      { rewrite heat_loop_vars. apply poll_vars_target_after_fire, Hc. }
      specialize (IHb Ht). lia.
    + intros Ht. exfalso. exact (classify_unarmed_not_fired w Ht H0 Hc).
Qed.

(** X10.  Over n polls of the heat sketch (the casts of the samples
    staying below the largest [int]) at most every other poll fires:
    twice the number of alerts is at most n + 1, at most n when no target
    is armed at the start, and the poll that follows an alert never
    fires. *)
Theorem heat_fires_at_most_every_other_poll
  (w : World Heat.Globals) (n : nat)
  (Hint : forall k, (k < n)%nat -> float_to_int (sample (after k w)) < 32767) :
  (2 * fires (trace_of (Heat.polls n w)) <= n + 1)%nat /\
  (Heat.TemperatureTarget (vars w) = 0 ->
   (2 * fires (trace_of (Heat.polls n w)) <= n)%nat) /\
  (forall k, (S k < n)%nat ->
     fires (trace_of (Heat.loop (after k w))) = 1%nat ->
     fires (trace_of (Heat.loop (after (S k) w))) = 0%nat).
Proof.
  destruct (heat_fires_bound n w Hint) as [Ha Hb].
  split; [exact Ha|]. split; [exact Hb|].
  intros k Hk Hf.
  assert (Hc : classify (after k w) = Fired).
  { rewrite heat_loop_fires in Hf. destruct (classify (after k w)); congruence. }
  assert (Ht : Heat.TemperatureTarget (vars (after (S k) w)) = 0).
  { rewrite after_snoc, heat_loop_vars. apply poll_vars_target_after_fire, Hc. }
  rewrite heat_loop_fires.
  assert (Hn := classify_unarmed_not_fired (after (S k) w) Ht (Hint (S k) Hk)).
  destruct (classify (after (S k) w)); try reflexivity. contradiction.
Qed.

Lemma heat_loop_reads (w : World Heat.Globals) :
  dht (sensors (hw (state_of (Heat.loop w)))) = dht (sensors (hw w)) /\
  dht_reads (state_of (Heat.loop w))
  = (dht_reads w + 1 + fires (trace_of (Heat.loop w)))%nat.
Proof.
  destruct (heat_loop_effect w) as (_ & _ & Hd & Hn).
  split; [exact Hd|]. rewrite Hn, heat_loop_fires. unfold poll_reads.
  destruct (classify w); lia.
Qed.

(** X11.  Over n polls the heat sketch reads the sensor once per poll
    and once more per alert, and in order: the number of readings made
    grows by n plus the number of alerts fired. *)
Theorem heat_readings_consumed
  (w : World Heat.Globals) (n : nat) :
  dht (sensors (hw (after n w))) = dht (sensors (hw w)) /\
  dht_reads (after n w)
  = (dht_reads w + n + fires (trace_of (Heat.polls n w)))%nat.
Proof.
  revert w. induction n as [|n IH]; intros w.
  - rewrite after_0. split; [reflexivity | cbn; lia].
  - destruct (heat_loop_reads w) as [Hd Hn].
    destruct (IH (state_of (Heat.loop w))) as [IHd IHn].
    rewrite after_S, polls_S_trace, fires_app, IHd, IHn, Hd, Hn.
    split; [reflexivity | lia].
Qed.

Lemma heat_alert_D5 (w : World Heat.Globals) :
  D5 (hw (state_of (Heat.alert w))) = D5 (hw w).
Proof. reflexivity. Qed.

Lemma heat_evaluate_D5 (w : World Heat.Globals) :
  D5 (hw (state_of (Heat.evaluate w))) = D5 (hw w).
Proof.
  rewrite heat_evaluate_run. cbn zeta.
  destruct (fleb _ _).
  - destruct (float_to_int _ >=? _).
    + rewrite state_tuple, heat_alert_D5, hw_mkWorld. reflexivity.
    + reflexivity.
  - destruct (fltb _ _).
    + rewrite heat_resetAll_state, hw_mkWorld. reflexivity.
    + reflexivity.
Qed.

Lemma heat_loop_D5 (w : World Heat.Globals) :
  read_ok w = true ->
  D5 (hw (state_of (Heat.loop w)))
  = mkDigit (level (D5 (hw w))) (Some (float_to_int (sample w), false)).
Proof.
  intros Hok. rewrite heat_loop_run. unfold read_ok in Hok. rewrite Hok.
  cbn zeta. rewrite state_tuple, hw_mkWorld, heat_evaluate_D5.
  destruct w as [b g]. reflexivity.
Qed.

(** X12.  After every poll whose read succeeded the first display
    renders the cast of that poll's sample and previous equals current.
    Current is the sample, except after an alert, where it is the
    temperature sampled again, which the display does not show. *)
Theorem heat_display_shows_polled_sample
  (w : World Heat.Globals) (Hok : read_ok w = true) :
  let w' := state_of (Heat.loop w) in
  content (D5 (hw w')) = Some (float_to_int (sample w), false) /\
  Heat.TemperaturePrevious (vars w') = Heat.TemperatureCurrent (vars w') /\
  (classify w = Fired -> Heat.TemperatureCurrent (vars w') = resample w) /\
  (classify w <> Fired -> Heat.TemperatureCurrent (vars w') = sample w).
Proof.
  cbn zeta. rewrite heat_loop_D5 by exact Hok. rewrite heat_loop_vars.
  unfold poll_vars, classify. rewrite Hok.
  split; [reflexivity|].
  destruct (rising w); [destruct (target_reached w) | destruct (below_band w)];
    (split; [reflexivity|]); split; intros H; try reflexivity;
    try discriminate; contradiction.
Qed.

Lemma fleb_nan_l (x : float) : fleb S754_nan x = false.
Proof. reflexivity. Qed.

Lemma fltb_nan_r (x : float) : fltb x S754_nan = false.
Proof. destruct x; reflexivity. Qed.

Lemma classify_nan_previous (w : World Heat.Globals) :
  read_ok w = true -> Heat.TemperaturePrevious (vars w) = S754_nan ->
  classify w = Unordered.
Proof.
  intros Hok Hp. unfold classify, rising, below_band, baseline, seeded.
  rewrite Hok, Hp. change (feqb S754_nan f_zero) with false. cbv iota.
  change (fadd S754_nan f_0_2) with S754_nan.
  rewrite fleb_nan_l, fltb_nan_r. reflexivity.
Qed.

(** X13.  The alert sequence does not test the status of its second
    read: when that read leaves NaN, previous is NaN after the alert.
    A poll that finds NaN in previous and reads successfully takes
    neither branch of the comparison: it only delays and renders the
    sample, keeps the target, and stores the sample as previous. *)
Theorem heat_nan_previous_suspends_one_poll
  (w : World Heat.Globals)
  (Hok : read_ok w = true)
  (Hprev : Heat.TemperaturePrevious (vars w) = S754_nan) :
  trace_of (Heat.loop w)
  = [Delay 1500; DigitShowNumberDec D5Digit (float_to_int (sample w)) false] /\
  vars (state_of (Heat.loop w))
  = Heat.mkGlobals (sample w) (sample w) (Heat.TemperatureTarget (vars w)) /\
  (forall w0 : World Heat.Globals,
     classify w0 = Fired -> resample w0 = S754_nan ->
     Heat.TemperaturePrevious (vars (state_of (Heat.loop w0))) = S754_nan /\
     Heat.TemperatureTarget (vars (state_of (Heat.loop w0))) = 0).
Proof.
  assert (Hc := classify_nan_previous w Hok Hprev).
  rewrite heat_loop_trace, heat_loop_vars. unfold poll_events, poll_vars.
  rewrite Hc. split; [reflexivity|]. split; [reflexivity|].
  intros w0 Hf Hr. rewrite heat_loop_vars. unfold poll_vars. rewrite Hf.
  cbn [Heat.TemperaturePrevious Heat.TemperatureTarget]. split; [exact Hr | reflexivity].
Qed.

(** Whole degrees from -40 to 125 are below themselves plus 0.2. *)
Lemma whole_degree_below_band (t : Z) :
  -40 <= t <= 125 -> fltb (f32 t 0) (fadd (f32 t 0) f_0_2) = true.
Proof.
  intros Ht.
  assert (H : forallb (fun t => fltb (f32 t 0) (fadd (f32 t 0) f_0_2))
                (range_up (-40) 125 1) = true) by (vm_compute; reflexivity).
  rewrite forallb_forall in H. apply H.
  rewrite range_up_unit by lia. apply in_map_iff.
  exists (Z.to_nat (t + 40)). split; [lia|]. apply in_seq. lia.
Qed.

Lemma classify_zero_previous (w : World Heat.Globals) (t : Z) :
  read_ok w = true ->
  feqb (Heat.TemperaturePrevious (vars w)) f_zero = true ->
  -40 <= t <= 125 -> sample w = f32 t 0 ->
  classify w = Relaxed.
Proof.
  intros Hok Hp Ht Hs. apply classify_relaxed; [exact Hok|].
  unfold below_band, baseline, seeded. rewrite Hp, Hs.
  apply whole_degree_below_band, Ht.
Qed.

(** X14.  A previous of 0 is taken for "no previous": whether it is the
    initial value or a reading of 0 degrees, a whole-degree sample t in
    -40..125 then replaces it before the comparison, so the poll is not
    a rise however large t is; it calls [resetAll] and stores t. *)
Theorem heat_zero_previous_is_reseeded
  (w : World Heat.Globals) (t : Z)
  (Hok : read_ok w = true)
  (Hprev : feqb (Heat.TemperaturePrevious (vars w)) f_zero = true)
  (Ht : -40 <= t <= 125)
  (Hsample : sample w = f32 t 0) :
  rising w = false /\
  trace_of (Heat.loop w)
  = [Delay 1500; DigitShowNumberDec D5Digit (float_to_int (f32 t 0)) false]
    ++ heat_reset_events /\
  vars (state_of (Heat.loop w)) = Heat.mkGlobals (f32 t 0) (f32 t 0) 0.
Proof.
  assert (Hc := classify_zero_previous w t Hok Hprev Ht Hsample).
  rewrite heat_loop_trace, heat_loop_vars. unfold poll_events, poll_vars.
  rewrite Hc, Hsample. split; [|split; reflexivity].
  unfold classify in Hc. rewrite Hok in Hc.
  destruct (rising w); [|reflexivity].
  destruct (target_reached w); discriminate.
Qed.

Lemma heat_setup_state (b : Board) (g : Heat.Globals) :
  vars (state_of (Heat.setup (mkWorld b g)))
  = Heat.mkGlobals (Heat.TemperatureCurrent g) (Heat.TemperaturePrevious g) 0 /\
  sensors (hw (state_of (Heat.setup (mkWorld b g)))) = sensors b /\
  level (D5 (hw (state_of (Heat.setup (mkWorld b g))))) = 4 /\
  mode (A3 (hw (state_of (Heat.setup (mkWorld b g))))) = INPUT /\
  brightness (A0 (hw (state_of (Heat.setup (mkWorld b g))))) = 150 /\
  brightness (A1 (hw (state_of (Heat.setup (mkWorld b g))))) = 150.
Proof. destruct b. repeat split. Qed.

(** X15.  [setup] of the heat sketch leaves the globals at their initial
    zeros and the first display at brightness 4, and the first poll after
    it, on a successful whole-degree reading t in -40..125, does not
    fire: it renders t and leaves current = previous = t, target 0. *)
Theorem heat_first_poll_after_setup_relaxes
  (b : Board) (t : Z)
  (Hok : status (dht (sensors b) (n_dht (sensors b))) = 0)
  (Ht : -40 <= t <= 125)
  (Hsample : temperature (dht (sensors b) (n_dht (sensors b))) = f32 t 0) :
  let boot := state_of (Heat.setup (mkWorld b Heat.globals0)) in
  vars boot = Heat.globals0 /\
  level (D5 (hw boot)) = 4 /\
  fires (trace_of (Heat.loop boot)) = 0%nat /\
  vars (state_of (Heat.loop boot)) = Heat.mkGlobals (f32 t 0) (f32 t 0) 0 /\
  content (D5 (hw (state_of (Heat.loop boot)))) = Some (float_to_int (f32 t 0), false).
Proof.
  cbn zeta.
  destruct (heat_setup_state b Heat.globals0) as (Hv & Hs & Hl & _).
  set (boot := state_of (Heat.setup (mkWorld b Heat.globals0))) in *.
  assert (Hsam : sample boot = f32 t 0).
  { unfold sample, next_reading. rewrite Hs. exact Hsample. }
  assert (Hrd : read_ok boot = true).
  { unfold read_ok, next_reading. rewrite Hs, Hok. reflexivity. }
  assert (Hp : feqb (Heat.TemperaturePrevious (vars boot)) f_zero = true).
  { rewrite Hv. reflexivity. }
  assert (Hc := classify_zero_previous boot t Hrd Hp Ht Hsam).
  split; [exact Hv|]. split; [exact Hl|].
  rewrite heat_loop_fires, heat_loop_vars, heat_loop_D5 by exact Hrd.
  unfold poll_vars. rewrite Hc, Hsam. repeat split.
Qed.


(* ===================================================================== *)
(** * Further properties of the traffic sketch *)
(* ===================================================================== *)

Lemma traffic_sequence_sensors (w : World Traffic.Globals) :
  sensors (hw (state_of (Traffic.sequence w))) = sensors (hw w).
Proof. reflexivity. Qed.

Lemma traffic_loop_sensors (w : World Traffic.Globals) :
  light (sensors (hw (state_of (Traffic.loop w)))) = light (sensors (hw w)) /\
  n_light (sensors (hw (state_of (Traffic.loop w)))) = S (n_light (sensors (hw w))).
Proof.
  rewrite traffic_loop_run. cbn zeta. rewrite state_tuple, hw_mkWorld.
  destruct (drop_detected w).
  - rewrite traffic_sequence_sensors. destruct w as [b g]. split; reflexivity.
  - destruct w as [b g]. split; reflexivity.
Qed.

Lemma upcoming_light_S {G} n (w w1 : World G) :
  light (sensors (hw w1)) = light (sensors (hw w)) ->
  n_light (sensors (hw w1)) = S (n_light (sensors (hw w))) ->
  upcoming_light (S n) w = next_light w :: upcoming_light n w1.
Proof.
  intros Hl Hn. unfold upcoming_light, next_light. cbn [seq map]. f_equal.
  rewrite <- seq_shift, map_map. apply map_ext. intros k.
  rewrite Hl, Hn. f_equal. lia.
Qed.

Lemma traffic_polls_S_trace k w :
  trace_of (Traffic.polls (S k) w)
  = trace_of (Traffic.loop w) ++ trace_of (Traffic.polls k (state_of (Traffic.loop w))).
Proof. cbn [Traffic.polls]. rewrite trace_bind. reflexivity. Qed.

Lemma traffic_polls_S_state k w :
  state_of (Traffic.polls (S k) w)
  = state_of (Traffic.polls k (state_of (Traffic.loop w))).
Proof. cbn [Traffic.polls]. rewrite state_bind. reflexivity. Qed.

Lemma drop_detected_spec (w : World Traffic.Globals) :
  subtractable (Traffic.LightPrevious (vars w)) ->
  drop_detected w = (next_light w <=? Traffic.LightPrevious (vars w) - 50).
Proof.
  intros H. unfold drop_detected, Traffic.LightDifference.
  rewrite int16_small by (unfold subtractable in H; lia). reflexivity.
Qed.

Lemma last_cons_default {A} (x d : A) (l : list A) :
  List.last (x :: l) d = List.last l x.
Proof.
  revert x d. induction l as [|y l IH]; intros x d; [reflexivity|].
  change (List.last (x :: y :: l) d) with (List.last (y :: l) d).
  rewrite !IH. reflexivity.
Qed.

Lemma traffic_run n : forall w,
  subtractable (Traffic.LightPrevious (vars w)) ->
  Forall subtractable (upcoming_light n w) ->
  fires (trace_of (Traffic.polls n w))
  = drops (Traffic.LightPrevious (vars w)) (upcoming_light n w) /\
  Traffic.LightPrevious (vars (state_of (Traffic.polls n w)))
  = List.last (upcoming_light n w) (Traffic.LightPrevious (vars w)) /\
  (gentle (Traffic.LightPrevious (vars w)) (upcoming_light n w) = true ->
   trace_of (Traffic.polls n w) = repeat (Delay 1000) n).
Proof.
  induction n as [|n IH]; intros w Hp Hs.
  - repeat split.
  - destruct (traffic_loop_sensors w) as [Hl Hn].
    rewrite (upcoming_light_S n w (state_of (Traffic.loop w)) Hl Hn) in *.
    apply Forall_cons_iff in Hs. destruct Hs as [Hs0 Hs].
    assert (Hv := traffic_loop_vars w).
    destruct (IH (state_of (Traffic.loop w))) as (IHf & IHp & IHg).
    { rewrite Hv. exact Hs0. }
    { exact Hs. }
    rewrite Hv in IHf, IHp, IHg. cbn [Traffic.LightPrevious] in IHf, IHp, IHg.
    rewrite traffic_polls_S_trace, traffic_polls_S_state, fires_app,
      traffic_loop_fires, traffic_loop_trace, (drop_detected_spec w Hp), IHf, IHp.
    cbn [drops gentle].
    split; [|split].
    + destruct (_ <=? _); reflexivity.
    + symmetry. apply last_cons_default.
    + destruct (_ <=? _); cbn [negb andb]; [discriminate|].
      intros Hg. rewrite (IHg Hg). reflexivity.
Qed.

(** X16.  Over n polls of the traffic sketch (samples and previous being
    values from which 50 can be subtracted in an [int]) the sequence
    fires once for every sample that lies 50 or more below the sample
    before it, the first being compared with the stored previous;
    afterwards previous is the last sample. *)
Theorem traffic_run_fires_once_per_drop
  (w : World Traffic.Globals) (n : nat)
  (Hprev : subtractable (Traffic.LightPrevious (vars w)))
  (Hsamples : Forall subtractable (upcoming_light n w)) :
  fires (trace_of (Traffic.polls n w))
  = drops (Traffic.LightPrevious (vars w)) (upcoming_light n w) /\
  Traffic.LightPrevious (vars (state_of (Traffic.polls n w)))
  = List.last (upcoming_light n w) (Traffic.LightPrevious (vars w)).
Proof.
  destruct (traffic_run n w Hprev Hsamples) as (H1 & H2 & _).
  split; assumption.
Qed.

(** X17.  A light level that never falls by 50 or more from one poll to
    the next never fires the traffic sequence, however far it falls in
    all: the n polls do nothing but their n delays of one second. *)
Theorem traffic_gentle_decline_never_fires
  (w : World Traffic.Globals) (n : nat)
  (Hprev : subtractable (Traffic.LightPrevious (vars w)))
  (Hsamples : Forall subtractable (upcoming_light n w))
  (Hgentle : gentle (Traffic.LightPrevious (vars w)) (upcoming_light n w) = true) :
  trace_of (Traffic.polls n w) = repeat (Delay 1000) n /\
  fires (trace_of (Traffic.polls n w)) = 0%nat.
Proof.
  destruct (traffic_run n w Hprev Hsamples) as (_ & _ & H3).
  rewrite (H3 Hgentle). split; [reflexivity|].
  clear. induction n as [|n IH]; [reflexivity | exact IH].
Qed.


(* ===================================================================== *)
(** * The board after a poll that fired *)
(* ===================================================================== *)

Lemma traffic_sequence_idle (w : World Traffic.Globals) :
  traffic_idle (hw (state_of (Traffic.sequence w))) = hw (state_of (Traffic.sequence w)).
Proof.
  unfold Traffic.sequence. rewrite !state_bind, traffic_resetAll_state, hw_mkWorld.
  apply traffic_idle_idem.
Qed.

Lemma traffic_sequence_attributes (w : World Traffic.Globals) :
  blink (I2CDisplay (hw (state_of (Traffic.sequence w)))) = false /\
  level (D7 (hw (state_of (Traffic.sequence w)))) = 4 /\
  A3 (hw (state_of (Traffic.sequence w))) = A3 (hw w) /\
  D5 (hw (state_of (Traffic.sequence w))) = D5 (hw w).
Proof. repeat split. Qed.

Lemma heat_alert_idle (w : World Heat.Globals) :
  heat_idle (hw (state_of (Heat.alert w))) = hw (state_of (Heat.alert w)).
Proof.
  unfold Heat.alert. rewrite !state_bind, heat_resetAll_state, hw_mkWorld.
  apply heat_idle_idem.
Qed.

Lemma heat_alert_attributes (w : World Heat.Globals) :
  blink (I2CDisplay (hw (state_of (Heat.alert w)))) = false /\
  level (D7 (hw (state_of (Heat.alert w)))) = 4 /\
  A3 (hw (state_of (Heat.alert w))) = A3 (hw w).
Proof. repeat split. Qed.

Lemma heat_loop_hw (w : World Heat.Globals) :
  read_ok w = true ->
  hw (state_of (Heat.loop w))
  = match classify w with
    | Fired => hw (state_of (Heat.alert
                 (mkWorld (hw (sampled w))
                    (Heat.mkGlobals (sample w) (baseline w) (armed_target w)))))
    | Relaxed => heat_idle (hw (sampled w))
    | _ => hw (sampled w)
    end.
Proof.
  intros Hok. rewrite heat_loop_run. unfold classify. rewrite Hok.
  unfold read_ok in Hok. rewrite Hok. cbn zeta.
  rewrite state_tuple, hw_mkWorld, heat_evaluate_run. cbn zeta.
  change (Heat.TemperatureCurrent (vars (sampled w))) with (sample w).
  change (Heat.TemperaturePrevious (vars (sampled w))) with (baseline w).
  change (Heat.TemperatureTarget (vars (sampled w)))
    with (Heat.TemperatureTarget (vars w)).
  change (if Heat.TemperatureTarget (vars w) =? 0
          then int16 (float_to_int (sample w) + Heat.MaxCelsiusIncrease)
          else Heat.TemperatureTarget (vars w)) with (armed_target w).
  change (fleb (fadd (baseline w) f_0_2) (sample w)) with (rising w).
  change (fltb (sample w) (fadd (baseline w) f_0_2)) with (below_band w).
  change (float_to_int (sample w) >=? armed_target w) with (target_reached w).
  destruct (rising w).
  - destruct (target_reached w); rewrite state_tuple; reflexivity.
  - destruct (below_band w).
    + rewrite heat_resetAll_state, hw_mkWorld. reflexivity.
    + reflexivity.
Qed.

Lemma traffic_idle_devices (b : Board) : traffic_idle b = b -> idle_devices b.
Proof.
  intros H. rewrite <- H. unfold idle_devices, traffic_idle.
  cbn [D2led I2CDisplay D7 backlight idle_panel content Driver.digit_clear].
  repeat split; destruct s; cbn [get_strip A0 A1 strip_reset pixels shown begun];
    rewrite ?length_replicate; reflexivity.
Qed.

Lemma heat_idle_devices (b : Board) : heat_idle b = b -> idle_devices b.
Proof.
  intros H. rewrite <- H. unfold idle_devices, heat_idle.
  cbn [D2led I2CDisplay D7 backlight idle_panel content Driver.digit_clear].
  repeat split; destruct s; cbn [get_strip A0 A1 strip_reset pixels shown begun];
    rewrite ?length_replicate; reflexivity.
Qed.

(** X18.  After a poll of the traffic or of the heat sketch that fired,
    the board is in the idle state: [resetAll] would not change it, the
    lamp and the backlight are green, the second display is blank, both
    strips are begun with every pixel off and committed, and the panel
    does not blink. *)
Theorem fired_poll_ends_idle :
  (forall w : World Traffic.Globals,
     drop_detected w = true ->
     let b' := hw (state_of (Traffic.loop w)) in
     hw (state_of (Traffic.resetAll (state_of (Traffic.loop w)))) = b' /\
     idle_devices b' /\ blink (I2CDisplay b') = false) /\
  (forall w : World Heat.Globals,
     classify w = Fired ->
     let b' := hw (state_of (Heat.loop w)) in
     hw (state_of (Heat.resetAll (state_of (Heat.loop w)))) = b' /\
     idle_devices b' /\ blink (I2CDisplay b') = false).
Proof.
  split.
  - intros w Hd. cbn zeta.
    assert (Hhw : hw (state_of (Traffic.loop w))
                  = hw (state_of (Traffic.sequence (seen w)))).
    { rewrite traffic_loop_run, Hd. cbn zeta. rewrite state_tuple, hw_mkWorld.
      reflexivity. }
    rewrite traffic_resetAll_state, hw_mkWorld, Hhw.
    assert (Hi := traffic_sequence_idle (seen w)).
    destruct (traffic_sequence_attributes (seen w)) as (Hb & _).
    split; [exact Hi|]. split; [apply traffic_idle_devices, Hi | exact Hb].
  - intros w Hc. cbn zeta.
    assert (Hok : read_ok w = true).
    { apply classify_fired in Hc. apply Hc. }
    rewrite heat_resetAll_state, hw_mkWorld, (heat_loop_hw w Hok), Hc.
    set (w1 := mkWorld (hw (sampled w))
                 (Heat.mkGlobals (sample w) (baseline w) (armed_target w))).
    assert (Hi := heat_alert_idle w1).
    destruct (heat_alert_attributes w1) as (Hb & _).
    split; [exact Hi|]. split; [apply heat_idle_devices, Hi | exact Hb].
Qed.


(* ===================================================================== *)
(** * The further properties at concrete boards *)
(* ===================================================================== *)

(** X1 on the first strip of the watering board, after the frames 0..3. *)
Lemma animateStrip_frame_lights_one_pixel_witness :
  numPixels (get_strip A0Strip (hw Demo.watering)) <= 65535 /\
  Z.of_nat 3 <= 32767 /\
  pixels (get_strip A0Strip
            (hw (state_of (for_each (range_up 0 (Z.of_nat 3) 1)
                             (animateStrip_step A0Strip) Demo.watering))))
    !! 3%nat = Some red.
Proof.
  assert (H1 : numPixels (get_strip A0Strip (hw Demo.watering)) <= 65535)
    by (vm_compute; congruence).
  assert (H2 : Z.of_nat 3 <= 32767) by (cbn; lia).
  split; [exact H1|]. split; [exact H2|].
  exact (proj2 (proj2 (animateStrip_frame_lights_one_pixel
                         Demo.watering A0Strip 3 H1 H2)) 3%nat 0 eq_refl).
Defined.

(** X2 on the first strip of the watering board. *)
Lemma animateStrip_last_frame_is_dark_witness :
  0 <= 8 <= 32767 /\
  numPixels (get_strip A0Strip (hw Demo.watering)) = 8 /\
  state_of (animateStrip A0Strip 8 Demo.watering)
  = state_of (for_each (range_up 0 8 1) (animateStrip_step A0Strip) Demo.watering).
Proof.
  assert (H : 0 <= 8 <= 32767) by lia.
  split; [exact H|]. split; [reflexivity|].
  exact (proj2 (proj2 (animateStrip_last_frame_is_dark
                         Demo.watering A0Strip 8 H eq_refl))).
Defined.

(** X4 for a strip of 8 pixels: 3.6 s. *)
Lemma animateStrip_blocks_for_L_plus_1_frames_witness :
  0 <= 8 < 32767 /\
  duration (trace_of (animateStrip A0Strip 8 Demo.watering)) = 400 * (8 + 1).
Proof.
  assert (H : 0 <= 8 < 32767) by lia.
  split; [exact H|].
  exact (animateStrip_blocks_for_L_plus_1_frames Demo.watering A0Strip 8 H).
Defined.

(** X7 at the touched board: the settled value is 30, and the first
    display ends on 88. *)
Lemma watering_renders_between_20_and_98_witness :
  next_touch Demo.watering = HIGH /\
  Forall (renders_within 20 98) (trace_of (Watering.loop Demo.watering)) /\
  List.last (rendered D5Digit (trace_of (Watering.loop Demo.watering))) 0 = 30 + 58.
Proof.
  split; [reflexivity|].
  split.
  - exact (proj1 (watering_renders_between_20_and_98 Demo.watering eq_refl)).
  - exact (proj1 (proj2 (proj2 (proj2 (proj2
             (watering_renders_between_20_and_98 Demo.watering eq_refl)))))).
Defined.

(** X9 on the poll that arms the target: 21.0 after 20.5. *)
Lemma heat_unarmed_poll_never_fires_witness :
  let w := after 1 (Demo.heat Demo.heating) in
  Heat.TemperatureTarget (vars w) = 0 /\
  float_to_int (sample w) < 32767 /\
  fires (trace_of (Heat.loop w)) = 0%nat.
Proof.
  intros w.
  assert (H1 : Heat.TemperatureTarget (vars w) = 0) by (vm_compute; reflexivity).
  assert (H2 : float_to_int (sample w) < 32767) by (vm_compute; reflexivity).
  split; [exact H1|]. split; [exact H2|].
  exact (proj1 (heat_unarmed_poll_never_fires w H1 H2)).
Defined.

(** X10 along four polls on 20.5, 21.0, 22.0, 22.5. *)
Lemma heat_fires_at_most_every_other_poll_witness :
  (forall k, (k < 4)%nat ->
     float_to_int (sample (after k (Demo.heat Demo.heating))) < 32767) /\
  (2 * fires (trace_of (Heat.polls 4 (Demo.heat Demo.heating))) <= 4 + 1)%nat.
Proof.
  assert (H : forall k, (k < 4)%nat ->
     float_to_int (sample (after k (Demo.heat Demo.heating))) < 32767).
  { intros k Hk. destruct k as [|[|[|[|k]]]];
      [vm_compute; reflexivity .. | lia]. }
  split; [exact H|].
  exact (proj1 (heat_fires_at_most_every_other_poll (Demo.heat Demo.heating) 4 H)).
Defined.

(** X12 on the poll that fires: the display keeps 22 while current
    becomes 22.5. *)
Lemma heat_display_shows_polled_sample_witness :
  let w := after 2 (Demo.heat Demo.heating) in
  read_ok w = true /\
  content (D5 (hw (state_of (Heat.loop w)))) = Some (float_to_int (sample w), false).
Proof.
  intros w.
  assert (H : read_ok w = true) by (vm_compute; reflexivity).
  split; [exact H|].
  exact (proj1 (heat_display_shows_polled_sample w H)).
Defined.

(** X13 after an alert whose second read failed. *)
Lemma heat_nan_previous_suspends_one_poll_witness :
  let w := after 3 (Demo.heat Demo.faltering) in
  read_ok w = true /\
  Heat.TemperaturePrevious (vars w) = S754_nan /\
  trace_of (Heat.loop w)
  = [Delay 1500; DigitShowNumberDec D5Digit (float_to_int (sample w)) false].
Proof.
  intros w.
  assert (H1 : read_ok w = true) by (vm_compute; reflexivity).
  assert (H2 : Heat.TemperaturePrevious (vars w) = S754_nan)
    by (vm_compute; reflexivity).
  split; [exact H1|]. split; [exact H2|].
  exact (proj1 (heat_nan_previous_suspends_one_poll w H1 H2)).
Defined.

(** X14 on a reading of 5 degrees after a reading of 0 degrees. *)
Lemma heat_zero_previous_is_reseeded_witness :
  let w := after 1 (Demo.heat Demo.thawing) in
  read_ok w = true /\
  feqb (Heat.TemperaturePrevious (vars w)) f_zero = true /\
  -40 <= 5 <= 125 /\
  sample w = f32 5 0 /\
  rising w = false.
Proof.
  intros w.
  assert (H1 : read_ok w = true) by (vm_compute; reflexivity).
  assert (H2 : feqb (Heat.TemperaturePrevious (vars w)) f_zero = true)
    by (vm_compute; reflexivity).
  assert (H3 : -40 <= 5 <= 125) by lia.
  assert (H4 : sample w = f32 5 0) by (vm_compute; reflexivity).
  split; [exact H1|]. split; [exact H2|]. split; [exact H3|]. split; [exact H4|].
  exact (proj1 (heat_zero_previous_is_reseeded w 5 H1 H2 H3 H4)).
Defined.

(** X15 on a board whose first reading is 0 degrees. *)
Lemma heat_first_poll_after_setup_relaxes_witness :
  status (dht (sensors (Demo.board 8 10 Demo.thawing))
            (n_dht (sensors (Demo.board 8 10 Demo.thawing)))) = 0 /\
  -40 <= 0 <= 125 /\
  temperature (dht (sensors (Demo.board 8 10 Demo.thawing))
                 (n_dht (sensors (Demo.board 8 10 Demo.thawing)))) = f32 0 0 /\
  vars (state_of (Heat.setup (mkWorld (Demo.board 8 10 Demo.thawing) Heat.globals0)))
  = Heat.globals0.
Proof.
  assert (H : -40 <= 0 <= 125) by lia.
  split; [reflexivity|]. split; [exact H|]. split; [reflexivity|].
  exact (proj1 (heat_first_poll_after_setup_relaxes
                  (Demo.board 8 10 Demo.thawing) 0 eq_refl H eq_refl)).
Defined.

(** X16 along three samples of 450 after a previous of 500: one fire. *)
Lemma traffic_run_fires_once_per_drop_witness :
  subtractable (Traffic.LightPrevious (vars (Demo.traffic 500 450))) /\
  Forall subtractable (upcoming_light 3 (Demo.traffic 500 450)) /\
  fires (trace_of (Traffic.polls 3 (Demo.traffic 500 450)))
  = drops (Traffic.LightPrevious (vars (Demo.traffic 500 450)))
          (upcoming_light 3 (Demo.traffic 500 450)).
Proof.
  assert (H1 : subtractable (Traffic.LightPrevious (vars (Demo.traffic 500 450))))
    by (unfold subtractable; cbn; lia).
  assert (H2 : Forall subtractable (upcoming_light 3 (Demo.traffic 500 450)))
    by (unfold upcoming_light, subtractable; cbn;
        repeat (constructor; [lia|]); constructor).
  split; [exact H1|]. split; [exact H2|].
  exact (proj1 (traffic_run_fires_once_per_drop (Demo.traffic 500 450) 3 H1 H2)).
Defined.

(** X17 along 951, 902, 853, 804, 755 after a previous of 1000: the level
    falls by 245 and nothing fires. *)
Lemma traffic_gentle_decline_never_fires_witness :
  let w := mkWorld (Demo.board 11 11 Demo.dimming) (Traffic.mkGlobals 1000 1000) in
  subtractable (Traffic.LightPrevious (vars w)) /\
  Forall subtractable (upcoming_light 5 w) /\
  gentle (Traffic.LightPrevious (vars w)) (upcoming_light 5 w) = true /\
  trace_of (Traffic.polls 5 w) = repeat (Delay 1000) 5.
Proof.
  intros w.
  assert (H1 : subtractable (Traffic.LightPrevious (vars w)))
    by (unfold subtractable; cbn; lia).
  assert (H2 : Forall subtractable (upcoming_light 5 w))
    by (unfold upcoming_light, subtractable; cbn;
        repeat (constructor; [lia|]); constructor).
  assert (H3 : gentle (Traffic.LightPrevious (vars w)) (upcoming_light 5 w) = true)
    by (vm_compute; reflexivity).
  split; [exact H1|]. split; [exact H2|]. split; [exact H3|].
  exact (proj1 (traffic_gentle_decline_never_fires w 5 H1 H2 H3)).
Defined.

(** The counts of the examples: one fire in X16, 245 of decline in X17,
    and two runs for two touches out of three reads. *)
Example traffic_three_polls_fire_once :
  fires (trace_of (Traffic.polls 3 (Demo.traffic 500 450))) = 1%nat.
Proof. vm_compute. reflexivity. Qed.

Example heat_faltering_run :
  map (fun k => classify (after k (Demo.heat Demo.faltering))) (seq 0 5)
  = [Relaxed; Held; Fired; Unordered; Relaxed].
Proof. vm_compute. reflexivity. Qed.
